(** * TPL0102 dual digital potentiometer driver: a shallow embedding

    The driver of [src/TPL0102.cpp] is an Arduino class whose methods mutate
    the object's fields and talk to three globals: [Wire] (the two-wire bus),
    [Serial] (diagnostic text) and the board (pins, [micros()]).  The methods
    are embedded as computations in a state monad over a [World] holding the
    object and those globals; undefined behaviour of the C++ (an array index
    out of range, a float converted to an [int] it does not fit) is the
    failure of the monad.  Integers are [Z] with their conversions written
    out; a [float] is an IEEE 754 binary32 value and every operation on it
    rounds as the hardware does. *)

From Stdlib Require Import ZArith List String Bool Lia.
From Stdlib Require Import Floats.SpecFloat.
Import ListNotations.
Local Open Scope Z_scope.

(** ** Machine integers *)

(** Conversion to [uint8_t]. *)
Definition u8 (z : Z) : Z := z mod 256.

(** Conversion to a signed eight-bit [char]. *)
Definition s8 (z : Z) : Z := if u8 z <? 128 then u8 z else u8 z - 256.

(** Conversion to [unsigned long] (32 bits on the boards that have
    [Serial.printf]). *)
Definition u32 (z : Z) : Z := z mod 4294967296.

(** The values an [int] can hold. *)
Definition in_int (z : Z) : bool := (-2147483648 <=? z) && (z <=? 2147483647).

(** ** Floating point *)

(** [float] is IEEE 754 binary32 in the executable model of the Standard
    Library: a signed zero, an infinity, a NaN, or a finite value
    [(-1)^s * m * 2^e] whose significand [m] has at most 24 bits.  Every
    operation rounds its exact result to the nearest such value, ties to
    even.  That is how the boards the driver is written for (32-bit, with
    [Serial.printf] and a two-pin [Wire.begin]) evaluate an expression of
    type [float]: each intermediate result is itself a [float]. *)
Definition float : Type := spec_float.

Definition binary32_prec : Z := 24.
Definition binary32_emax : Z := 128.

(** [m * 2^e] rounded to [float]. *)
Definition float_of_dyadic (m e : Z) : float :=
  binary_normalize binary32_prec binary32_emax m e false.

(** The conversion of an integer to [float], which C++ inserts where an
    integer meets a [float] operand, is assigned to a [float] or is returned
    from a function of type [float]. *)
Definition float_of_int (z : Z) : float := float_of_dyadic z 0.

Coercion float_of_int : Z >-> float.

(** [x * y] and [x / y] on [float].  A division by zero gives an infinity
    or a NaN, as IEEE 754 has it.  The driver's one quotient is converted
    to an integer at once, which is undefined for these values: a call that
    divides by zero is undefined in the embedding. *)
Definition fmul (x y : float) : float := SFmul binary32_prec binary32_emax x y.
Definition fdiv (x y : float) : float := SFdiv binary32_prec binary32_emax x y.


(** [round(x)] as an integer: the nearest one, halves away from zero.  The
    C library's [round] and Arduino's macro of that name ([(long)(x + 0.5)]
    or [(long)(x - 0.5)], computed in [double]) agree on this for every
    finite [float].  An infinity and a NaN have no integer value: converting
    them is undefined behaviour. *)
Definition round (x : float) : option Z :=
  match x with
  | S754_zero _ => Some 0
  | S754_finite s m e =>
      let magnitude :=
        if 0 <=? e then Z.pos m * 2 ^ e
        else (2 * Z.pos m + 2 ^ (- e)) / (2 * 2 ^ (- e)) in
      Some (if s then - magnitude else magnitude)
  | S754_infinity _ | S754_nan => None
  end.

(** ** Constants of the headers *)

(** Modelled from the spec: [TPL0102.h] is not among the sources, so the
    register map it defines (wiper registers A and B, access-control
    register, shutdown mask, general-purpose range), the standard bus clock,
    the default nominal resistance and the label tables are parameters of the
    development.  The spec names them without giving values. *)
Class TPL0102_h := {
  WRA : Z;
  WRB : Z;
  ACR : Z;
  SHUTDOWN_MASK : Z;
  GENERAL_PURPOSE_START : Z;
  GENERAL_PURPOSE_END : Z;
  STANDARD : Z;
  TPL0102_NOMINAL_RESISTANCE : float;
  POT_LABELS : string * string;
  REGISTER_LABELS : string * string * string
}.

(** Modelled from the spec: the tap count of [TPL0102.h], "total tap count
    (64)", taken as the integer constant the source compares the mirror with
    and assigns to it.  An integer it is also where the source divides the
    mirror by it, and it is converted to [float] where the source multiplies
    a [float] by it. *)
Definition TPL0102_TAP_NUMBER : Z := 64.

(** Pin numbers of the board's two-wire bus ([pins_arduino.h]). *)
Class Board := {
  SDA : Z;
  SCL : Z
}.

(** Arduino logic levels. *)
Definition HIGH : Z := 1.
Definition LOW : Z := 0.

(** ** The bus transaction collaborator *)

(** What was seen on the bus, oldest first. *)
Inductive BusEvent : Type :=
| BusBegin (sda scl : Z)
| BusClock (hz : Z)
| BusWrite (addr : Z) (payload : list Z) (sendStop : bool) (result : Z)
| BusRequest (addr quantity : Z) (sendStop : bool) (received : list Z).

(** Modelled from the spec: the physical device behind the bus ("the
    physical device is the persistence layer"), as far as the driver can see
    it: a register file and the register pointer set by the first byte of a
    write. *)
Record Slave : Type := {
  regs : Z -> Z;
  pointer : Z
}.

(** Modelled from the spec: the [Wire] object is the external bus transaction
    collaborator of the spec's section 6 (begin-transaction-to-address,
    write-byte, end-transaction with a hold flag, request-N-bytes, read
    available byte, configure clock speed).  It buffers the bytes of the open
    transaction, delivers them to the device when the transaction ends, and
    records every transfer in [trace].  [faults] scripts the outcome of the
    coming transfers: each transfer consumes one entry, [0] meaning that the
    device acknowledged; an exhausted script means no further fault. *)
Record TwoWire : Type := {
  clock_hz : Z;
  txAddress : Z;
  txBuffer : list Z;
  rxBuffer : list Z;
  slave : Slave;
  faults : list Z;
  trace : list BusEvent
}.

(** A device that acknowledged a write takes the first byte as register
    pointer and the second, when there is one, as the register's new
    contents. *)
Definition slave_receive (s : Slave) (payload : list Z) : Slave :=
  match payload with
  | [] => s
  | [p] => {| regs := regs s; pointer := p |}
  | p :: v :: _ =>
      {| regs := fun r => if r =? p then v else regs s r; pointer := p |}
  end.

(** A device asked for [n] bytes sends the registers from its pointer on. *)
Definition slave_send (s : Slave) (n : Z) : list Z :=
  map (fun k => u8 (regs s (pointer s + Z.of_nat k))) (seq 0 (Z.to_nat n)).

(** ** The driver object and the world around it *)

(** Modelled from the spec: the declaration of [class TPL0102] is in the
    absent header.  These are the fields the methods under study touch, the
    two- and three-element arrays as tuples.  The tap mirror ("integer in the
    closed range [0, MAX_TAP]") is taken as an array of [uint8_t], the type
    of every value the source moves in and out of it ([taps]' return type,
    [dataWrite]'s [val], the cast that feeds [_initialState]).  The nominal
    resistance is a [float], the type of the argument [begin] assigns to
    it. *)
Record TPL0102 : Type := {
  _debug : bool;
  _ledsDefined : bool;
  _selectedChannel : Z;
  _boardLEDs : Z * Z;
  _prevLEDsState : Z * Z;
  address : Z;
  _nominalResistance : float;
  _initialState : Z * Z * Z;
  _tapPointer : Z * Z;
  _incDelay : Z;
  _decDelay : Z;
  _setDelay : Z
}.

(** One item sent to [Serial], the diagnostic output. *)
Inductive SerialItem : Type :=
| Str (s : string)
| Dec (z : Z)
| Hex (z : Z)
| Flt (x : float)
| Ln
| Printf (fmt : string) (args : list Z).

(** The microsecond timer: [ticks k] is what the [k]-th call of [micros()]
    returns. *)
Record Timer : Type := {
  ticks : nat -> Z;
  reads : nat
}.

Record World : Type := {
  this : TPL0102;
  Wire : TwoWire;
  Serial : list SerialItem;
  pins : list (Z * Z);
  timer : Timer
}.

(** ** The monad of driver computations *)

Definition M (A : Type) : Type := World -> option (A * World).

Definition ret {A : Type} (a : A) : M A := fun w => Some (a, w).

Definition bind {A B : Type} (m : M A) (k : A -> M B) : M B :=
  fun w => match m w with
           | Some (a, w') => k a w'
           | None => None
           end.

(** Undefined behaviour. *)
Definition undefined {A : Type} : M A := fun _ => None.

Declare Scope drv_scope.
Delimit Scope drv_scope with drv.
Notation "x <- m ;; k" := (bind m (fun x => k))
  (at level 61, m at next level, right associativity) : drv_scope.
Notation "m ;; k" := (bind m (fun _ => k))
  (at level 61, right associativity) : drv_scope.
Local Open Scope drv_scope.

(** Reading and updating the object. *)
Definition rd {A : Type} (f : TPL0102 -> A) : M A :=
  fun w => Some (f (this w), w).

Definition wr (f : TPL0102 -> TPL0102) : M unit :=
  fun w => Some (tt, {| this := f (this w); Wire := Wire w;
                        Serial := Serial w; pins := pins w;
                        timer := timer w |}).

(** Updating the bus. *)
Definition onWire {A : Type} (f : TwoWire -> A * TwoWire) : M A :=
  fun w => let (a, b) := f (Wire w) in
           Some (a, {| this := this w; Wire := b; Serial := Serial w;
                       pins := pins w; timer := timer w |}).

Definition when (b : bool) (m : M unit) : M unit := if b then m else ret tt.

(** The world a computation leaves, when it is defined. *)
Definition run {A : Type} (m : M A) (w : World) : option World :=
  option_map snd (m w).

(** ** Primitives of the collaborators *)

(** Modelled from the spec: the operations of the bus transaction
    collaborator, named after the methods of [Wire] that the driver calls. *)

Module WireImpl.

Definition log (b : TwoWire) (e : BusEvent) : list BusEvent := trace b ++ [e].

Definition begin (sda scl : Z) (b : TwoWire) : unit * TwoWire :=
  (tt, {| clock_hz := clock_hz b; txAddress := txAddress b;
          txBuffer := txBuffer b; rxBuffer := rxBuffer b; slave := slave b;
          faults := faults b; trace := log b (BusBegin sda scl) |}).

Definition setClock (hz : Z) (b : TwoWire) : unit * TwoWire :=
  (tt, {| clock_hz := hz; txAddress := txAddress b;
          txBuffer := txBuffer b; rxBuffer := rxBuffer b; slave := slave b;
          faults := faults b; trace := log b (BusClock hz) |}).

Definition beginTransmission (a : Z) (b : TwoWire) : unit * TwoWire :=
  (tt, {| clock_hz := clock_hz b; txAddress := a; txBuffer := [];
          rxBuffer := rxBuffer b; slave := slave b; faults := faults b;
          trace := trace b |}).

Definition write (byte : Z) (b : TwoWire) : unit * TwoWire :=
  (tt, {| clock_hz := clock_hz b; txAddress := txAddress b;
          txBuffer := txBuffer b ++ [u8 byte]; rxBuffer := rxBuffer b;
          slave := slave b; faults := faults b; trace := trace b |}).

(** The transfer's outcome is the head of the fault script; the device
    takes the payload only when it acknowledged. *)
Definition endTransmission (sendStop : bool) (b : TwoWire) : Z * TwoWire :=
  let res := hd 0 (faults b) in
  (res, {| clock_hz := clock_hz b; txAddress := txAddress b; txBuffer := [];
           rxBuffer := rxBuffer b;
           slave := if res =? 0 then slave_receive (slave b) (txBuffer b)
                    else slave b;
           faults := tl (faults b);
           trace := log b (BusWrite (txAddress b) (txBuffer b) sendStop res) |}).

Definition requestFrom (a quantity : Z) (sendStop : bool) (b : TwoWire)
  : Z * TwoWire :=
  let res := hd 0 (faults b) in
  let got := if res =? 0 then slave_send (slave b) quantity else [] in
  (Z.of_nat (List.length got),
   {| clock_hz := clock_hz b; txAddress := txAddress b;
      txBuffer := txBuffer b; rxBuffer := got; slave := slave b;
      faults := tl (faults b);
      trace := log b (BusRequest a quantity sendStop got) |}).

Definition available (b : TwoWire) : Z * TwoWire :=
  (Z.of_nat (List.length (rxBuffer b)), b).

Definition read (b : TwoWire) : Z * TwoWire :=
  match rxBuffer b with
  | [] => (-1, b)
  | c :: rest =>
      (c, {| clock_hz := clock_hz b; txAddress := txAddress b;
             txBuffer := txBuffer b; rxBuffer := rest; slave := slave b;
             faults := faults b; trace := trace b |})
  end.

End WireImpl.

Definition Wire_begin (sda scl : Z) : M unit := onWire (WireImpl.begin sda scl).
Definition Wire_setClock (hz : Z) : M unit := onWire (WireImpl.setClock hz).
Definition Wire_beginTransmission (a : Z) : M unit :=
  onWire (WireImpl.beginTransmission a).
Definition Wire_write (byte : Z) : M unit := onWire (WireImpl.write byte).
Definition Wire_endTransmission (sendStop : bool) : M Z :=
  onWire (WireImpl.endTransmission sendStop).
Definition Wire_requestFrom (a quantity : Z) (sendStop : bool) : M Z :=
  onWire (WireImpl.requestFrom a quantity sendStop).
Definition Wire_read : M Z := onWire WireImpl.read.

(** [while (Wire.available()) { c = Wire.read(); body }]: one round per byte
    waiting in the receive buffer, [body] leaving that buffer alone.  [acc]
    carries the local variables the body assigns. *)
Fixpoint drain {A : Type} (waiting : list Z) (body : Z -> A -> M A) (acc : A)
  : M A :=
  match waiting with
  | [] => ret acc
  | _ :: rest => c <- Wire_read ;; acc' <- body c acc ;; drain rest body acc'
  end.

Definition while_Wire_available {A : Type} (body : Z -> A -> M A) (acc : A)
  : M A :=
  fun w => drain (rxBuffer (Wire w)) body acc w.

(** [Serial.print] and [Serial.println]. *)
Definition Serial_print (i : SerialItem) : M unit :=
  fun w => Some (tt, {| this := this w; Wire := Wire w;
                        Serial := Serial w ++ [i]; pins := pins w;
                        timer := timer w |}).

Definition Serial_println (i : SerialItem) : M unit :=
  Serial_print i ;; Serial_print Ln.

(** [digitalWrite(pin, level)]. *)
Definition digitalWrite (pin level : Z) : M unit :=
  fun w => Some (tt, {| this := this w; Wire := Wire w; Serial := Serial w;
                        pins := pins w ++ [(pin, level)];
                        timer := timer w |}).

(** [micros()]. *)
Definition micros : M Z :=
  fun w => Some (u32 (ticks (timer w) (reads (timer w))),
                 {| this := this w; Wire := Wire w; Serial := Serial w;
                    pins := pins w;
                    timer := {| ticks := ticks (timer w);
                                reads := S (reads (timer w)) |} |}).

(** ** Field updates and array accesses *)

Definition set_selectedChannel (v : Z) (d : TPL0102) : TPL0102 :=
  {| _debug := _debug d; _ledsDefined := _ledsDefined d;
     _selectedChannel := v; _boardLEDs := _boardLEDs d;
     _prevLEDsState := _prevLEDsState d; address := address d;
     _nominalResistance := _nominalResistance d;
     _initialState := _initialState d; _tapPointer := _tapPointer d;
     _incDelay := _incDelay d; _decDelay := _decDelay d;
     _setDelay := _setDelay d |}.

Definition set_prevLEDsState (v : Z * Z) (d : TPL0102) : TPL0102 :=
  {| _debug := _debug d; _ledsDefined := _ledsDefined d;
     _selectedChannel := _selectedChannel d; _boardLEDs := _boardLEDs d;
     _prevLEDsState := v; address := address d;
     _nominalResistance := _nominalResistance d;
     _initialState := _initialState d; _tapPointer := _tapPointer d;
     _incDelay := _incDelay d; _decDelay := _decDelay d;
     _setDelay := _setDelay d |}.

Definition set_address (v : Z) (d : TPL0102) : TPL0102 :=
  {| _debug := _debug d; _ledsDefined := _ledsDefined d;
     _selectedChannel := _selectedChannel d; _boardLEDs := _boardLEDs d;
     _prevLEDsState := _prevLEDsState d; address := v;
     _nominalResistance := _nominalResistance d;
     _initialState := _initialState d; _tapPointer := _tapPointer d;
     _incDelay := _incDelay d; _decDelay := _decDelay d;
     _setDelay := _setDelay d |}.

Definition set_nominalResistance (v : float) (d : TPL0102) : TPL0102 :=
  {| _debug := _debug d; _ledsDefined := _ledsDefined d;
     _selectedChannel := _selectedChannel d; _boardLEDs := _boardLEDs d;
     _prevLEDsState := _prevLEDsState d; address := address d;
     _nominalResistance := v;
     _initialState := _initialState d; _tapPointer := _tapPointer d;
     _incDelay := _incDelay d; _decDelay := _decDelay d;
     _setDelay := _setDelay d |}.

Definition set_initialState (v : Z * Z * Z) (d : TPL0102) : TPL0102 :=
  {| _debug := _debug d; _ledsDefined := _ledsDefined d;
     _selectedChannel := _selectedChannel d; _boardLEDs := _boardLEDs d;
     _prevLEDsState := _prevLEDsState d; address := address d;
     _nominalResistance := _nominalResistance d;
     _initialState := v; _tapPointer := _tapPointer d;
     _incDelay := _incDelay d; _decDelay := _decDelay d;
     _setDelay := _setDelay d |}.

Definition set_tapPointer (v : Z * Z) (d : TPL0102) : TPL0102 :=
  {| _debug := _debug d; _ledsDefined := _ledsDefined d;
     _selectedChannel := _selectedChannel d; _boardLEDs := _boardLEDs d;
     _prevLEDsState := _prevLEDsState d; address := address d;
     _nominalResistance := _nominalResistance d;
     _initialState := _initialState d; _tapPointer := v;
     _incDelay := _incDelay d; _decDelay := _decDelay d;
     _setDelay := _setDelay d |}.

Definition set_incDelay (v : Z) (d : TPL0102) : TPL0102 :=
  {| _debug := _debug d; _ledsDefined := _ledsDefined d;
     _selectedChannel := _selectedChannel d; _boardLEDs := _boardLEDs d;
     _prevLEDsState := _prevLEDsState d; address := address d;
     _nominalResistance := _nominalResistance d;
     _initialState := _initialState d; _tapPointer := _tapPointer d;
     _incDelay := v; _decDelay := _decDelay d; _setDelay := _setDelay d |}.

Definition set_decDelay (v : Z) (d : TPL0102) : TPL0102 :=
  {| _debug := _debug d; _ledsDefined := _ledsDefined d;
     _selectedChannel := _selectedChannel d; _boardLEDs := _boardLEDs d;
     _prevLEDsState := _prevLEDsState d; address := address d;
     _nominalResistance := _nominalResistance d;
     _initialState := _initialState d; _tapPointer := _tapPointer d;
     _incDelay := _incDelay d; _decDelay := v; _setDelay := _setDelay d |}.

Definition set_setDelay (v : Z) (d : TPL0102) : TPL0102 :=
  {| _debug := _debug d; _ledsDefined := _ledsDefined d;
     _selectedChannel := _selectedChannel d; _boardLEDs := _boardLEDs d;
     _prevLEDsState := _prevLEDsState d; address := address d;
     _nominalResistance := _nominalResistance d;
     _initialState := _initialState d; _tapPointer := _tapPointer d;
     _incDelay := _incDelay d; _decDelay := _decDelay d; _setDelay := v |}.

(** [a[i]] for a two-element array: defined for [i] in {0, 1} only. *)
Definition at2 {A : Type} (a : A * A) (i : Z) : option A :=
  match i with
  | 0 => Some (fst a)
  | 1 => Some (snd a)
  | _ => None
  end.

(** [a[i] = v] for a two-element array. *)
Definition put2 {A : Type} (a : A * A) (i : Z) (v : A) : option (A * A) :=
  match i with
  | 0 => Some (v, snd a)
  | 1 => Some (fst a, v)
  | _ => None
  end.

Definition at3 {A : Type} (a : A * A * A) (i : Z) : option A :=
  match i with
  | 0 => Some (fst (fst a))
  | 1 => Some (snd (fst a))
  | 2 => Some (snd a)
  | _ => None
  end.

Definition put3 {A : Type} (a : A * A * A) (i : Z) (v : A)
  : option (A * A * A) :=
  match i with
  | 0 => Some (v, snd (fst a), snd a)
  | 1 => Some (fst (fst a), v, snd a)
  | 2 => Some (fst (fst a), snd (fst a), v)
  | _ => None
  end.

(** An access outside the array is undefined behaviour. *)
Definition defined {A : Type} (o : option A) : M A :=
  match o with
  | Some a => ret a
  | None => undefined
  end.

(** [_tapPointer[ch]] as an rvalue, and [_tapPointer[ch] = v]. *)
Definition tapPointer_at (ch : Z) : M Z :=
  a <- rd _tapPointer ;; defined (at2 a ch).

Definition tapPointer_assign (ch v : Z) : M unit :=
  a <- rd _tapPointer ;;
  a' <- defined (put2 a ch v) ;;
  wr (set_tapPointer a').

(** [for (int i = ...; ...; i++) body] over the listed values of [i]. *)
Fixpoint for_each (l : list Z) (body : Z -> M unit) : M unit :=
  match l with
  | [] => ret tt
  | i :: rest => body i ;; for_each rest body
  end.

(** The values [lo, lo + 1, ...] of a loop variable, [n] of them. *)
Fixpoint upto (lo : Z) (n : nat) : list Z :=
  match n with
  | O => []
  | S n' => lo :: upto (lo + 1) n'
  end.

(** ** Conversions to [int] *)

(** An [int] result: undefined when it does not fit. *)
Definition to_int (z : Z) : M Z := if in_int z then ret z else undefined.

(** ** The methods of [TPL0102.cpp] *)

Section Driver.

Context {hdr : TPL0102_h} {board : Board}.

(** Modelled from the spec: the table [_regs] of the absent header, read by
    [readRegistersStatus]: "one single-byte read per relevant register
    (wiper-A, wiper-B, control register)". *)
Definition _regs : Z * Z * Z := (WRA, WRB, ACR).

(** [void TPL0102::readRegistersStatus()].  The received [char] is taken as
    unsigned. *)
Definition readRegistersStatus : M unit :=
  for_each [0; 1; 2] (fun pos =>
    a <- rd address ;;
    Wire_beginTransmission a ;;
    r <- defined (at3 _regs pos) ;;
    Wire_write r ;;
    Wire_endTransmission false ;;
    Wire_requestFrom a 1 false ;;
    while_Wire_available (fun c _ =>
      let I2CResponse := u8 c in
      st <- rd _initialState ;;
      st' <- defined (put3 st pos (u8 I2CResponse)) ;;
      wr (set_initialState st') ;;
      dbg <- rd _debug ;;
      when dbg (
        Serial_println (Str " ******************** ") ;;
        l <- defined (at3 REGISTER_LABELS pos) ;;
        Serial_print (Str l) ;;
        Serial_print (Hex I2CResponse) ;;
        Serial_print (Str " (HEX)") ;;
        Serial_print (Dec I2CResponse) ;;
        Serial_print (Str " (DEC)") ;;
        Serial_println (Str " ") ;;
        Serial_println (Str " ******************** "))) tt ;;
    Wire_endTransmission true ;;
    ret tt).

(** [void TPL0102::readDummyRegStatus()]. *)
Definition readDummyRegStatus : M unit :=
  for_each
    (upto GENERAL_PURPOSE_START
          (Z.to_nat (GENERAL_PURPOSE_END - GENERAL_PURPOSE_START + 1)))
    (fun dummyPos =>
      a <- rd address ;;
      Wire_beginTransmission a ;;
      Wire_write dummyPos ;;
      Wire_endTransmission false ;;
      Wire_requestFrom a 1 false ;;
      while_Wire_available (fun c _ =>
        let I2CResponse := u8 c in
        dbg <- rd _debug ;;
        when dbg (
          Serial_print (Str "Dummy [") ;;
          Serial_print (Hex dummyPos) ;;
          Serial_print (Str "]: ") ;;
          Serial_print (Hex I2CResponse) ;;
          Serial_print (Str " (HEX)") ;;
          Serial_print (Dec I2CResponse) ;;
          Serial_print (Str " (DEC)") ;;
          Serial_println (Str " "))) tt ;;
      Wire_endTransmission true ;;
      ret tt).

(** The tail shared by the two overloads of [begin], from the read-back on. *)
Definition begin_sync : M unit :=
  readRegistersStatus ;;
  st <- rd _initialState ;;
  i0 <- defined (at3 st 0) ;;
  tapPointer_assign 0 i0 ;;
  st <- rd _initialState ;;
  i1 <- defined (at3 st 1) ;;
  tapPointer_assign 1 i1 ;;
  dbg <- rd _debug ;;
  when dbg (
    Serial_println (Str "Initializing TPL0102...") ;;
    Serial_println (Str "Initial values:") ;;
    for_each [0; 1] (fun i =>
      l <- defined (at2 POT_LABELS i) ;;
      Serial_print (Str l) ;;
      t <- tapPointer_at i ;;
      Serial_println (Dec t))).

(** [void TPL0102::begin(uint16_t addr, uint32_t speed)]. *)
Definition begin (addr speed : Z) : M unit :=
  Wire_begin SDA SCL ;;
  Wire_setClock STANDARD ;;
  wr (set_address addr) ;;
  wr (set_nominalResistance TPL0102_NOMINAL_RESISTANCE) ;;
  begin_sync.

(** [void TPL0102::begin(uint16_t addr, float nomRes, uint32_t speed)]. *)
Definition begin_nomRes (addr : Z) (nomRes : float) (speed : Z) : M unit :=
  Wire_begin SDA SCL ;;
  Wire_setClock STANDARD ;;
  wr (set_address addr) ;;
  wr (set_nominalResistance nomRes) ;;
  begin_sync.

(** [float TPL0102::wiper(uint8_t ch)].  Mirror and tap count are integers:
    the quotient is that of the integer division, which truncates, and it
    is converted to [float] on return. *)
Definition wiper (ch : Z) : M float :=
  wr (set_selectedChannel ch) ;;
  t <- tapPointer_at ch ;;
  ret (float_of_int (Z.quot t TPL0102_TAP_NUMBER)).

(** [void TPL0102::switchPot(uint8_t ch, uint8_t st)].  [ACR_VALUE] is a
    [char], taken as unsigned; [SHDN_INSTR] keeps the low eight bits of the
    [int] the bit operation yields, which do not depend on that choice. *)
Definition switchPot (ch st : Z) : M unit :=
  wr (set_selectedChannel ch) ;;
  a <- rd address ;;
  Wire_beginTransmission a ;;
  Wire_write ACR ;;
  Wire_endTransmission false ;;
  Wire_requestFrom a 1 false ;;
  ACR_VALUE <- while_Wire_available (fun c _ => ret (u8 c)) 0 ;;
  Wire_endTransmission true ;;
  let SHDN_INSTR :=
    if st =? HIGH then u8 (Z.lor ACR_VALUE SHUTDOWN_MASK)
    else if st =? LOW then u8 (Z.lxor ACR_VALUE SHUTDOWN_MASK)
    else u8 (Z.lor ACR_VALUE 0) in
  Wire_beginTransmission a ;;
  Wire_write ACR ;;
  Wire_write SHDN_INSTR ;;
  Wire_endTransmission true ;;
  ret tt.

(** [void TPL0102::dataWrite(uint8_t ch, uint8_t val)]. *)
Definition dataWrite (ch val : Z) : M unit :=
  wr (set_selectedChannel ch) ;;
  let wiperPointer :=
    match ch with
    | 0 => WRA
    | 1 => WRB
    | _ => WRA
    end in
  a <- rd address ;;
  Wire_beginTransmission a ;;
  Wire_write wiperPointer ;;
  Wire_write val ;;
  res <- Wire_endTransmission true ;;
  dbg <- rd _debug ;;
  when dbg (Serial_print
    (Printf "result of I2C transmission potentionneter is %d, I2C Address: %u\n"
            [res; a])).

(** [void TPL0102::inc(uint8_t ch)]. *)
Definition inc (ch : Z) : M unit :=
  wr (set_selectedChannel ch) ;;
  t <- tapPointer_at ch ;;
  if t <? TPL0102_TAP_NUMBER then
    _startIncTime <- micros ;;
    tapPointer_assign ch (u8 (t + 1)) ;;
    t <- tapPointer_at ch ;;
    when (TPL0102_TAP_NUMBER <=? t)
         (tapPointer_assign ch TPL0102_TAP_NUMBER) ;;
    t <- tapPointer_at ch ;;
    dataWrite ch t ;;
    dbg <- rd _debug ;;
    when dbg (
      Serial_print (Str "Current step ") ;;
      l <- defined (at2 POT_LABELS ch) ;;
      Serial_print (Str l) ;;
      t <- tapPointer_at ch ;;
      Serial_println (Dec t)) ;;
    now <- micros ;;
    wr (set_incDelay (u32 (now - _startIncTime)))
  else ret tt.

(** [void TPL0102::dec(uint8_t ch)]. *)
Definition dec (ch : Z) : M unit :=
  wr (set_selectedChannel ch) ;;
  t <- tapPointer_at ch ;;
  if 0 <? t then
    _startDecTime <- micros ;;
    tapPointer_assign ch (u8 (t - 1)) ;;
    t <- tapPointer_at ch ;;
    when (t <=? 0) (tapPointer_assign ch 0) ;;
    t <- tapPointer_at ch ;;
    dataWrite ch t ;;
    dbg <- rd _debug ;;
    when dbg (
      Serial_print (Str "Current step ") ;;
      l <- defined (at2 POT_LABELS ch) ;;
      Serial_print (Str l) ;;
      t <- tapPointer_at ch ;;
      Serial_println (Dec t)) ;;
    now <- micros ;;
    wr (set_decDelay (u32 (now - _startDecTime)))
  else ret tt.

(** [unsigned long TPL0102::incMicros()], [decMicros()], [setMicros()]. *)
Definition incMicros : M Z := rd _incDelay.
Definition decMicros : M Z := rd _decDelay.
Definition setMicros : M Z := rd _setDelay.

(** [uint8_t TPL0102::taps(uint8_t ch)]. *)
Definition taps (ch : Z) : M Z :=
  wr (set_selectedChannel ch) ;;
  tapPointer_at ch.

(** [uint8_t TPL0102::setValue(uint8_t ch, float desiredR)].  The product
    and the quotient are [float] operations, each rounded.  [tapTarget] is
    an [int]; it is converted to [uint8_t] where it is passed to [dataWrite],
    stored in the mirror and returned. *)
Definition setValue (ch : Z) (desiredR : float) : M Z :=
  _startSetTime <- micros ;;
  nominal <- rd _nominalResistance ;;
  x <- defined
         (round (fdiv (fmul desiredR (float_of_int TPL0102_TAP_NUMBER))
                      nominal)) ;;
  tapTarget <- to_int x ;;
  t <- tapPointer_at ch ;;
  diff <- to_int (t - tapTarget) ;;
  dist <- to_int (Z.abs diff) ;;
  let distance := float_of_int dist in
  dbg <- rd _debug ;;
  when dbg (
    Serial_print (Str "Distance to target: ") ;;
    Serial_println (Flt distance) ;;
    Serial_print (Str "Target tap: ") ;;
    Serial_println (Dec tapTarget) ;;
    Serial_print (Str "desiredR: ") ;;
    Serial_println (Flt desiredR) ;;
    Serial_print (Str "ch: ") ;;
    Serial_println (Dec ch) ;;
    Serial_print (Str "_tapPointer[ch]: ") ;;
    t <- tapPointer_at ch ;;
    Serial_println (Dec t) ;;
    Serial_print Ln) ;;
  t <- tapPointer_at ch ;;
  when (negb (tapTarget =? t)) (
    dataWrite ch (u8 tapTarget) ;;
    tapPointer_assign ch (u8 tapTarget)) ;;
  now <- micros ;;
  wr (set_setDelay (u32 (now - _startSetTime))) ;;
  ret (u8 tapTarget).

(** [uint8_t TPL0102::setTap(uint8_t ch, uint8_t desiredTap)]. *)
Definition setTap (ch desiredTap : Z) : M Z :=
  _startSetTime <- micros ;;
  let tapTarget := desiredTap in
  t <- tapPointer_at ch ;;
  diff <- to_int (t - tapTarget) ;;
  dist <- to_int (Z.abs diff) ;;
  let distance := float_of_int dist in
  dbg <- rd _debug ;;
  when dbg (
    Serial_print (Str "Distance to target: ") ;;
    Serial_println (Flt distance) ;;
    Serial_print (Str "Target tap: ") ;;
    Serial_println (Dec tapTarget) ;;
    Serial_print Ln) ;;
  t <- tapPointer_at ch ;;
  when (negb (tapTarget =? t)) (
    dataWrite ch (u8 tapTarget) ;;
    tapPointer_assign ch (u8 tapTarget)) ;;
  now <- micros ;;
  wr (set_setDelay (u32 (now - _startSetTime))) ;;
  ret (u8 tapTarget).

(** [void TPL0102::toggleLED(uint8_t ch)]. *)
Definition toggleLED (ch : Z) : M unit :=
  leds <- rd _boardLEDs ;;
  match ch with
  | 0 =>
      digitalWrite (fst leds) HIGH ;;
      digitalWrite (snd leds) LOW ;;
      wr (set_prevLEDsState (HIGH, LOW))
  | 1 =>
      digitalWrite (snd leds) HIGH ;;
      digitalWrite (fst leds) LOW ;;
      wr (set_prevLEDsState (LOW, HIGH))
  | _ => ret tt
  end.

(** [uint8_t TPL0102::setChannel(uint8_t ch)]. *)
Definition setChannel (ch : Z) : M Z :=
  wr (set_selectedChannel ch) ;;
  leds <- rd _ledsDefined ;;
  when leds (sel <- rd _selectedChannel ;; toggleLED sel) ;;
  rd _selectedChannel.

(** [void TPL0102::zeroWiper(uint8_t ch)]. *)
Definition zeroWiper (ch : Z) : M unit :=
  wr (set_selectedChannel ch) ;;
  tapPointer_assign ch 0 ;;
  t <- tapPointer_at ch ;;
  dataWrite ch t.

(** [void TPL0102::maxWiper(uint8_t ch)]. *)
Definition maxWiper (ch : Z) : M unit :=
  wr (set_selectedChannel ch) ;;
  tapPointer_assign ch TPL0102_TAP_NUMBER ;;
  t <- tapPointer_at ch ;;
  dataWrite ch t.

(** [float TPL0102::readValue(uint8_t ch)].  The quotient is the integer
    one of [wiper]; it is converted to [float] for the product. *)
Definition readValue (ch : Z) : M float :=
  wr (set_selectedChannel ch) ;;
  t <- tapPointer_at ch ;;
  nominal <- rd _nominalResistance ;;
  ret (fmul (float_of_int (Z.quot t TPL0102_TAP_NUMBER)) nominal).

End Driver.

(** ** Vocabulary of the properties *)

(** The two wiper circuits, and the [ch] argument that selects each. *)
Inductive Channel : Type := CH_A | CH_B.

Definition ch_id (c : Channel) : Z :=
  match c with
  | CH_A => 0
  | CH_B => 1
  end.

(** The tap mirror of a channel. *)
Definition tapPosition (c : Channel) (w : World) : Z :=
  match c with
  | CH_A => fst (_tapPointer (this w))
  | CH_B => snd (_tapPointer (this w))
  end.

(** The mirror array with the entry of [c] replaced. *)
Definition store (c : Channel) (v : Z) (a : Z * Z) : Z * Z :=
  match c with
  | CH_A => (v, snd a)
  | CH_B => (fst a, v)
  end.

(** The values of [uint8_t]. *)
Definition byte (z : Z) : Prop := 0 <= z < 256.

(** Both mirrors within [0, MAX_TAP]. *)
Definition tap_in_range (w : World) : Prop :=
  forall c, 0 <= tapPosition c w <= TPL0102_TAP_NUMBER.

(** The parts of the state that the wiper operations leave alone. *)
Definition settings (w : World) : bool * bool * Z * float * Z :=
  (_debug (this w), _ledsDefined (this w), address (this w),
   _nominalResistance (this w), clock_hz (Wire w)).


(** What [inc] and [dec] leave in the mirror when they move it from [t]. *)
Definition inc_target (t : Z) : Z :=
  if TPL0102_TAP_NUMBER <=? u8 (t + 1) then TPL0102_TAP_NUMBER else u8 (t + 1).

Definition dec_target (t : Z) : Z :=
  if u8 (t - 1) <=? 0 then 0 else u8 (t - 1).

(** The tap [setValue] aims at: the product rounded to [float], the
    quotient rounded to [float], and that [float] rounded to an integer.
    There is none when the quotient is an infinity or a NaN. *)
Definition tap_target (desiredR nominal : float) : option Z :=
  round (fdiv (fmul desiredR (float_of_int TPL0102_TAP_NUMBER)) nominal).

(** The channel other than [c]. *)
Definition other (c : Channel) : Channel :=
  match c with
  | CH_A => CH_B
  | CH_B => CH_A
  end.


(** What [f] sees of the value a computation returns and the world it
    leaves. *)
Definition observe {A B : Type} (m : M A) (w : World) (f : A -> World -> B)
  : option B :=
  match m w with
  | Some (a, w') => Some (f a w')
  | None => None
  end.

(** [m] run [k] times in a row. *)
Fixpoint times (k : nat) (m : M unit) : M unit :=
  match k with
  | O => ret tt
  | S k' => m ;; times k' m
  end.

Section Vocabulary.

Context {hdr : TPL0102_h} {board : Board}.

(** The address of a channel's wiper register as it goes on the bus. *)
Definition wiper_reg (c : Channel) : Z :=
  match c with
  | CH_A => u8 WRA
  | CH_B => u8 WRB
  end.

(** The transfer by which [dataWrite], called in world [w], sends [v] to the
    wiper register of [c]; its result is the outcome the bus has in store. *)
Definition wiper_write (c : Channel) (v : Z) (w : World) : BusEvent :=
  BusWrite (address (this w)) [wiper_reg c; u8 v] true (hd 0 (faults (Wire w))).

(** [w'] is [w] after one wiper-register write of [v] on channel [c]. *)
Definition wrote (c : Channel) (v : Z) (w w' : World) : Prop :=
  _tapPointer (this w') = store c v (_tapPointer (this w)) /\
  trace (Wire w') = trace (Wire w) ++ [wiper_write c v w] /\
  faults (Wire w') = tl (faults (Wire w)) /\
  _selectedChannel (this w') = ch_id c /\
  settings w' = settings w.

(** [w'] is [w] with mirror and bus untouched. *)
Definition idle (w w' : World) : Prop :=
  _tapPointer (this w') = _tapPointer (this w) /\
  Wire w' = Wire w /\
  settings w' = settings w.

(** The public operations that write a wiper register. *)
Inductive Op : Type :=
| OpInc (c : Channel)
| OpDec (c : Channel)
| OpSetValue (c : Channel) (desiredR : float)
| OpSetTap (c : Channel) (desiredTap : Z)
| OpZeroWiper (c : Channel)
| OpMaxWiper (c : Channel).

Definition exec (o : Op) : M unit :=
  match o with
  | OpInc c => inc (ch_id c)
  | OpDec c => dec (ch_id c)
  | OpSetValue c r => setValue (ch_id c) r ;; ret tt
  | OpSetTap c t => setTap (ch_id c) t ;; ret tt
  | OpZeroWiper c => zeroWiper (ch_id c)
  | OpMaxWiper c => maxWiper (ch_id c)
  end.

Fixpoint exec_all (os : list Op) : M unit :=
  match os with
  | [] => ret tt
  | o :: rest => exec o ;; exec_all rest
  end.

(** The cursor an operation leaves. *)
Definition cursor_after {A : Type} (m : M A) (w : World) : option Z :=
  option_map (fun w' => _selectedChannel (this w')) (run m w).

(** A request that asks for a tap within [0, MAX_TAP], [nominal] being the
    nominal resistance in force: for [setValue], the tap target exists and
    is in that range. *)
Definition in_range_request (nominal : float) (o : Op) : Prop :=
  match o with
  | OpSetValue _ r =>
      match tap_target r nominal with
      | Some x => 0 <= x <= TPL0102_TAP_NUMBER
      | None => False
      end
  | OpSetTap _ t => 0 <= t <= TPL0102_TAP_NUMBER
  | _ => True
  end.

(** The channel an operation addresses. *)
Definition op_channel (o : Op) : Channel :=
  match o with
  | OpInc c | OpDec c | OpSetValue c _ | OpSetTap c _
  | OpZeroWiper c | OpMaxWiper c => c
  end.




(** The byte held by the device's access-control register. *)
Definition control_byte (w : World) : Z := u8 (regs (slave (Wire w)) (u8 ACR)).

(** The transfers of one [switchPot] on a bus that acknowledges: the
    register pointer is set, the control byte is read, the read is closed,
    and [newbyte] is written back. *)
Definition control_exchange (w : World) (newbyte : Z) : list BusEvent :=
  [BusWrite (address (this w)) [u8 ACR] false 0;
   BusRequest (address (this w)) 1 false [control_byte w];
   BusWrite (address (this w)) [] true 0;
   BusWrite (address (this w)) [u8 ACR; newbyte] true 0].

(** The shutdown bits are set: the channel is not shut down. *)
Definition enabled (x : Z) : Prop := Z.land x SHUTDOWN_MASK = SHUTDOWN_MASK.

(** The shutdown bits are clear. *)
Definition disabled (x : Z) : Prop := Z.land x SHUTDOWN_MASK = 0.

(** The bus configuration calls seen so far. *)
Definition configuration (w : World) : list BusEvent :=
  filter (fun e => match e with
                   | BusBegin _ _ | BusClock _ => true
                   | _ => false
                   end) (trace (Wire w)).

End Vocabulary.

(** ** A concrete bench *)

(** A register map for the bench: wiper registers at 0 and 1, control
    register at 16, shutdown mask 64. *)
Definition datasheet : TPL0102_h :=
  {| WRA := 0; WRB := 1; ACR := 16; SHUTDOWN_MASK := 64;
     GENERAL_PURPOSE_START := 2; GENERAL_PURPOSE_END := 14;
     STANDARD := 100000; TPL0102_NOMINAL_RESISTANCE := 100000;
     POT_LABELS := ("Pot A: ", "Pot B: ")%string;
     REGISTER_LABELS := ("WRA: ", "WRB: ", "ACR: ")%string |}.

Definition esp32 : Board := {| SDA := 21; SCL := 22 |}.

(** A driver with both mirrors at [a] and [b], cursor on channel A and a
    nominal resistance of 10 kOhm. *)
Definition driver_at (a b : Z) : TPL0102 :=
  {| _debug := false; _ledsDefined := false; _selectedChannel := 0;
     _boardLEDs := (2, 4); _prevLEDsState := (LOW, LOW); address := 80;
     _nominalResistance := 10000; _initialState := (a, b, 64);
     _tapPointer := (a, b); _incDelay := 0; _decDelay := 0; _setDelay := 0 |}.

(** A bus whose device holds [a], [b] and [acr] in its wiper and control
    registers and whose coming transfers have the outcomes [f]. *)
Definition bus_with (a b acr : Z) (f : list Z) : TwoWire :=
  {| clock_hz := 100000; txAddress := 0; txBuffer := []; rxBuffer := [];
     slave := {| regs := fun r => if r =? 0 then a else if r =? 1 then b
                                  else if r =? 16 then acr else 0;
                 pointer := 0 |};
     faults := f; trace := [] |}.

Definition bench (a b : Z) (f : list Z) : World :=
  {| this := driver_at a b; Wire := bus_with a b 64 f; Serial := [];
     pins := [];
     timer := {| ticks := fun k => 100 * Z.of_nat k; reads := 0 |} |}.

(** ** Vocabulary of the further properties *)



(** The time between the next two readings of [micros()], as an
    [unsigned long]. *)
Definition elapsed (w : World) : Z :=
  u32 (ticks (timer w) (S (reads (timer w)))
       - ticks (timer w) (reads (timer w))).

(** The pin of a channel's indicator. *)
Definition led (c : Channel) (w : World) : Z :=
  match c with
  | CH_A => fst (_boardLEDs (this w))
  | CH_B => snd (_boardLEDs (this w))
  end.

Section MoreVocabulary.

Context {hdr : TPL0102_h}.

(** The byte the device holds in the wiper register of a channel. *)
Definition wiper_byte (c : Channel) (w : World) : Z :=
  u8 (regs (slave (Wire w)) (wiper_reg c)).

(** The mirror of each channel equals the device's wiper register. *)
Definition in_sync (w : World) : Prop :=
  forall c, wiper_byte c w = tapPosition c w.

End MoreVocabulary.

(** A bench world with a chosen control byte and indicator setting. *)
Definition rig (a b acr : Z) (leds : bool) (f : list Z) : World :=
  {| this := {| _debug := false; _ledsDefined := leds; _selectedChannel := 0;
                _boardLEDs := (2, 4); _prevLEDsState := (LOW, LOW);
                address := 80; _nominalResistance := 10000;
                _initialState := (a, b, acr); _tapPointer := (a, b);
                _incDelay := 0; _decDelay := 0; _setDelay := 0 |};
     Wire := bus_with a b acr f; Serial := []; pins := [];
     timer := {| ticks := fun k => 100 * Z.of_nat k; reads := 0 |} |}.

(** ** Integer facts *)

Lemma u8_byte z : byte (u8 z).
Proof. unfold byte, u8. apply Z.mod_pos_bound. lia. Qed.

Lemma u8_small z : byte z -> u8 z = z.
Proof. unfold byte, u8. intros H. apply Z.mod_small. exact H. Qed.

Lemma u8_idem z : u8 (u8 z) = u8 z.
Proof. apply u8_small, u8_byte. Qed.

Lemma u8_land z : u8 z = Z.land z 255.
Proof. unfold u8. symmetry. apply (Z.land_ones z 8). lia. Qed.

Lemma in_int_spec z :
  in_int z = true <-> -2147483648 <= z <= 2147483647.
Proof. unfold in_int. rewrite andb_true_iff, !Z.leb_le. tauto. Qed.

Lemma in_int_byte_diff a b : byte a -> byte b -> in_int (a - b) = true.
Proof. unfold byte. intros Ha Hb. apply in_int_spec. lia. Qed.

Lemma in_int_byte_dist a b : byte a -> byte b -> in_int (Z.abs (a - b)) = true.
Proof. unfold byte. intros Ha Hb. apply in_int_spec. lia. Qed.

Lemma inc_target_below t :
  0 <= t < TPL0102_TAP_NUMBER -> inc_target t = t + 1.
Proof.
  unfold inc_target, TPL0102_TAP_NUMBER. intros H.
  rewrite (u8_small (t + 1)) by (unfold byte; lia).
  destruct (Z.leb_spec 64 (t + 1)); lia.
Qed.

Lemma dec_target_above t :
  0 < t <= TPL0102_TAP_NUMBER -> dec_target t = t - 1.
Proof.
  unfold dec_target, TPL0102_TAP_NUMBER. intros H.
  rewrite (u8_small (t - 1)) by (unfold byte; lia).
  destruct (Z.leb_spec (t - 1) 0); lia.
Qed.

Lemma inc_target_range t :
  0 <= inc_target t <= TPL0102_TAP_NUMBER.
Proof.
  unfold inc_target, TPL0102_TAP_NUMBER.
  pose proof (u8_byte (t + 1)) as H. unfold byte in H.
  destruct (Z.leb_spec 64 (u8 (t + 1))); lia.
Qed.

Lemma dec_target_range t :
  0 < t <= TPL0102_TAP_NUMBER -> 0 <= dec_target t <= TPL0102_TAP_NUMBER.
Proof.
  intros H. rewrite dec_target_above by exact H.
  unfold TPL0102_TAP_NUMBER in *. lia.
Qed.

(** ** What each operation does to the world *)

#[global] Arguments u8 : simpl never.
#[global] Arguments u32 : simpl never.
#[global] Arguments in_int : simpl never.
#[global] Arguments round : simpl never.

Ltac open_world w :=
  let d := fresh "d" in
  let b := fresh "b" in
  let t := fresh "t" in
  destruct w as [d b ?s ?p t];
  destruct d as [?dbg ?leds ?sel ?bl ?pl ?addr ?nom ?ini [?ta ?tb] ?di ?dd ?ds];
  destruct b as [?hz ?txa ?txb ?rxb [?rg ?ptr] ?fl ?tr];
  destruct t as [?tk ?rds].

Ltac drv_simpl :=
  cbn [negb when] in *;
  cbv beta iota zeta delta
      [this Wire Serial pins timer
       _debug _ledsDefined _selectedChannel _boardLEDs _prevLEDsState address
       _nominalResistance _initialState _tapPointer _incDelay _decDelay
       _setDelay
       clock_hz txAddress txBuffer rxBuffer slave faults trace
       regs pointer ticks reads
       set_selectedChannel set_prevLEDsState set_address
       set_nominalResistance set_initialState set_tapPointer set_incDelay
       set_decDelay set_setDelay
       fst snd at2 put2 at3 put3
       WireImpl.begin WireImpl.setClock WireImpl.beginTransmission
       WireImpl.write WireImpl.endTransmission WireImpl.requestFrom
       WireImpl.available WireImpl.read WireImpl.log slave_receive
       bind ret defined undefined rd wr onWire micros Serial_print
       digitalWrite ch_id tapPosition store] in *;
  cbn [app] in *.

Ltac drv_unfold :=
  unfold exec, inc, dec, zeroWiper, maxWiper, setTap, setValue, taps, wiper,
    readValue, setChannel;
  unfold dataWrite, toggleLED, tapPointer_at, tapPointer_assign, to_int,
    Serial_println, Wire_beginTransmission, Wire_write, Wire_endTransmission.

(** Runs the code at the head of the goal, splitting on each test it meets. *)
Ltac crank :=
  drv_simpl;
  repeat (match goal with
          | |- context [negb (?x =? ?y)] => destruct (x =? y) eqn:?
          | |- context [when ?c _] => destruct c eqn:?
          | |- context [in_int ?z] => destruct (in_int z) eqn:?
          | |- context [round ?x] => destruct (round x) eqn:?
          | |- context [?x <? ?y] => destruct (x <? y) eqn:?
          end; try congruence; drv_simpl).

Ltac effect_done :=
  eexists; split; [reflexivity |];
  unfold wrote, idle, settings, wiper_write, wiper_reg;
  drv_simpl; repeat split; try reflexivity.

Section Effects.

Context {hdr : TPL0102_h} {board : Board}.

Lemma zeroWiper_effect c w :
  exists w', zeroWiper (ch_id c) w = Some (tt, w') /\ wrote c 0 w w'.
Proof.
  open_world w. destruct c, dbg; drv_unfold; crank; effect_done.
Qed.

Lemma maxWiper_effect c w :
  exists w', maxWiper (ch_id c) w = Some (tt, w') /\
             wrote c TPL0102_TAP_NUMBER w w'.
Proof.
  open_world w. destruct c, dbg; drv_unfold; crank; effect_done.
Qed.

Lemma inc_effect c w :
  exists w', inc (ch_id c) w = Some (tt, w') /\
    _selectedChannel (this w') = ch_id c /\
    if tapPosition c w <? TPL0102_TAP_NUMBER
    then wrote c (inc_target (tapPosition c w)) w w'
    else idle w w'.
Proof.
  open_world w. unfold inc_target.
  destruct c, dbg; drv_unfold; crank; effect_done.
Qed.

Lemma dec_effect c w :
  exists w', dec (ch_id c) w = Some (tt, w') /\
    _selectedChannel (this w') = ch_id c /\
    if 0 <? tapPosition c w
    then wrote c (dec_target (tapPosition c w)) w w'
    else idle w w'.
Proof.
  open_world w. unfold dec_target.
  destruct c, dbg; drv_unfold; crank; effect_done.
Qed.

Lemma setTap_effect c t w :
  byte (tapPosition c w) -> byte t ->
  exists w', setTap (ch_id c) t w = Some (t, w') /\
    if t =? tapPosition c w
    then idle w w' /\ _selectedChannel (this w') = _selectedChannel (this w)
    else wrote c t w w'.
Proof.
  open_world w.
  destruct c; drv_simpl; intros Hcur Ht;
    pose proof (in_int_byte_diff _ _ Hcur Ht) as Hd;
    pose proof (in_int_byte_dist _ _ Hcur Ht) as Ha;
    pose proof (u8_small t Ht) as Hu;
    destruct dbg; drv_unfold; crank; rewrite ?Hu; effect_done;
    rewrite ?Hu; reflexivity.
Qed.

Lemma in_int_target_diff a b :
  byte a -> -2147483392 <= b <= 2147483647 ->
  in_int b = true /\ in_int (a - b) = true /\ in_int (Z.abs (a - b)) = true.
Proof.
  unfold byte. intros Ha Hb. rewrite !in_int_spec. lia.
Qed.

(** setValue, where the C++ is defined: a mirror that holds a byte and a
    tap target that exists and fits an [int] together with its distance to
    the mirror. *)
Lemma setValue_effect c r w x :
  byte (tapPosition c w) ->
  tap_target r (_nominalResistance (this w)) = Some x ->
  -2147483392 <= x <= 2147483647 ->
  exists w',
    setValue (ch_id c) r w = Some (u8 x, w') /\
    if x =? tapPosition c w
    then idle w w' /\ _selectedChannel (this w') = _selectedChannel (this w)
    else wrote c (u8 x) w w'.
Proof.
  open_world w. unfold tap_target.
  destruct c; drv_simpl; intros Hcur Htgt Hx;
    destruct (in_int_target_diff _ _ Hcur Hx) as (Hi & Hd & Ha);
    destruct dbg; drv_unfold; drv_simpl; rewrite Htgt; crank; effect_done;
    apply u8_idem.
Qed.





End Effects.

(** ** Consequences for the mirror *)

Section Mirror.

Context {hdr : TPL0102_h} {board : Board}.

Lemma wrote_tapPosition c v w w' :
  wrote c v w w' -> tapPosition c w' = v.
Proof.
  intros (Hm & _). unfold tapPosition. rewrite Hm. destruct c; reflexivity.
Qed.


Lemma wrote_range c v w w' :
  wrote c v w w' -> tap_in_range w -> 0 <= v <= TPL0102_TAP_NUMBER ->
  tap_in_range w'.
Proof.
  intros (Hm & _) Hr Hv c'.
  pose proof (Hr CH_A) as Ha. pose proof (Hr CH_B) as Hb.
  unfold tapPosition in *. rewrite Hm.
  destruct c, c'; cbn [store fst snd]; assumption.
Qed.

Lemma idle_range w w' : idle w w' -> tap_in_range w -> tap_in_range w'.
Proof.
  intros (Hm & _) Hr c'. specialize (Hr c').
  unfold tapPosition in *. rewrite Hm. exact Hr.
Qed.

Lemma wrote_nominal c v w w' :
  wrote c v w w' -> _nominalResistance (this w') = _nominalResistance (this w).
Proof.
  intros (_ & _ & _ & _ & Hs). unfold settings in Hs. congruence.
Qed.

Lemma idle_nominal w w' :
  idle w w' -> _nominalResistance (this w') = _nominalResistance (this w).
Proof.
  intros (_ & _ & Hs). unfold settings in Hs. congruence.
Qed.

Lemma range_byte w c : tap_in_range w -> byte (tapPosition c w).
Proof.
  intros Hr. specialize (Hr c). unfold byte, TPL0102_TAP_NUMBER in *. lia.
Qed.

(** One operation whose request is in range keeps both mirrors in range. *)
Lemma exec_keeps_range o w :
  tap_in_range w ->
  in_range_request (_nominalResistance (this w)) o ->
  exists w', exec o w = Some (tt, w') /\ tap_in_range w' /\
             _nominalResistance (this w') = _nominalResistance (this w).
Proof.
  intros Hr Hreq. destruct o as [c | c | c r | c t | c | c]; cbn [exec].
  - destruct (inc_effect c w) as (w' & Hrun & _ & Heff).
    exists w'. split; [exact Hrun |].
    destruct (Z.ltb_spec (tapPosition c w) TPL0102_TAP_NUMBER).
    + split; [| eapply wrote_nominal; eassumption].
      eapply wrote_range; [eassumption | assumption | apply inc_target_range].
    + split; [eapply idle_range | eapply idle_nominal]; eassumption.
  - destruct (dec_effect c w) as (w' & Hrun & _ & Heff).
    exists w'. split; [exact Hrun |].
    destruct (Z.ltb_spec 0 (tapPosition c w)).
    + split; [| eapply wrote_nominal; eassumption].
      eapply wrote_range; [eassumption | assumption |].
      apply dec_target_range. specialize (Hr c). lia.
    + split; [eapply idle_range | eapply idle_nominal]; eassumption.
  - cbn [in_range_request] in Hreq.
    destruct (tap_target r (_nominalResistance (this w))) as [x |] eqn:Htgt;
      [| contradiction].
    assert (Hb : byte x) by (unfold byte, TPL0102_TAP_NUMBER in *; lia).
    destruct (setValue_effect c r w x) as (w' & Hrun & Heff);
      [apply range_byte; assumption | assumption
      | unfold TPL0102_TAP_NUMBER in *; lia |].
    exists w'. unfold bind. rewrite Hrun. split; [reflexivity |].
    rewrite (u8_small _ Hb) in Heff.
    destruct (x =? tapPosition c w).
    + destruct Heff as (Hi & _).
      split; [eapply idle_range | eapply idle_nominal]; eassumption.
    + split; [| eapply wrote_nominal; eassumption].
      eapply wrote_range; eassumption.
  - cbn [in_range_request] in Hreq.
    assert (Hb : byte t) by (unfold byte, TPL0102_TAP_NUMBER in *; lia).
    destruct (setTap_effect c t w) as (w' & Hrun & Heff);
      [apply range_byte; assumption | assumption |].
    exists w'. unfold bind. rewrite Hrun. split; [reflexivity |].
    destruct (t =? tapPosition c w).
    + destruct Heff as (Hi & _).
      split; [eapply idle_range | eapply idle_nominal]; eassumption.
    + split; [| eapply wrote_nominal; eassumption].
      eapply wrote_range; eassumption.
  - destruct (zeroWiper_effect c w) as (w' & Hrun & Heff).
    exists w'. split; [exact Hrun |].
    split; [| eapply wrote_nominal; eassumption].
    eapply wrote_range; [eassumption | assumption |].
    unfold TPL0102_TAP_NUMBER. lia.
  - destruct (maxWiper_effect c w) as (w' & Hrun & Heff).
    exists w'. split; [exact Hrun |].
    split; [| eapply wrote_nominal; eassumption].
    eapply wrote_range; [eassumption | assumption |].
    unfold TPL0102_TAP_NUMBER. lia.
Qed.

(** So does any sequence of such operations. *)
Lemma exec_all_keeps_range os :
  forall w,
    tap_in_range w ->
    Forall (in_range_request (_nominalResistance (this w))) os ->
    exists w', exec_all os w = Some (tt, w') /\ tap_in_range w'.
Proof.
  induction os as [| o os IH]; intros w Hr Hall.
  - exists w. split; [reflexivity | exact Hr].
  - inversion Hall as [| ? ? Ho Hos]; subst.
    destruct (exec_keeps_range o w Hr Ho) as (w1 & Hrun & Hr1 & Hnom).
    rewrite <- Hnom in Hos.
    destruct (IH w1 Hr1 Hos) as (w2 & Hrun2 & Hr2).
    exists w2. cbn [exec_all]. unfold bind. rewrite Hrun. split; assumption.
Qed.

(** C1, as amended.  Starting with both tap mirrors within [0, MAX_TAP], a
    sequence of inc, dec, setValue, setTap, zeroWiper and maxWiper calls
    leaves both mirrors within [0, MAX_TAP] after each call, provided every
    setTap asks for a tap within [0, MAX_TAP] and every setValue asks for a
    resistance whose tap target, [round ((desiredR * MAX_TAP) /
    nominalResistance)] as the code evaluates it in [float] arithmetic,
    exists and is within [0, MAX_TAP]. *)
Theorem tap_mirror_stays_in_range os w k :
  tap_in_range w ->
  Forall (in_range_request (_nominalResistance (this w))) os ->
  exists w', exec_all (firstn k os) w = Some (tt, w') /\ tap_in_range w'.
Proof.
  intros Hr Hall. apply exec_all_keeps_range; [exact Hr |].
  rewrite <- (firstn_skipn k os) in Hall.
  apply Forall_app in Hall. exact (proj1 Hall).
Qed.

End Mirror.

(** ** The mirror and the outcome of the write *)

Section Outcome.

Context {hdr : TPL0102_h} {board : Board}.


(** C3.  From tap 0, [k] calls of inc leave the mirror at [min k MAX_TAP];
    a call of inc with the mirror at MAX_TAP leaves the bus and the mirror
    as they were. *)
Theorem inc_counts_up_and_saturates c w :
  (tapPosition c w = 0 ->
   forall k, exists w',
     times k (inc (ch_id c)) w = Some (tt, w') /\
     tapPosition c w' = Z.min (Z.of_nat k) TPL0102_TAP_NUMBER) /\
  (tapPosition c w = TPL0102_TAP_NUMBER ->
   exists w',
     inc (ch_id c) w = Some (tt, w') /\
     Wire w' = Wire w /\
     _tapPointer (this w') = _tapPointer (this w)).
Proof.
  split.
  - intros H0 k.
    assert (Hgen : forall n v, 0 <= tapPosition c v <= TPL0102_TAP_NUMBER ->
              exists v', times n (inc (ch_id c)) v = Some (tt, v') /\
                tapPosition c v'
                = Z.min (tapPosition c v + Z.of_nat n) TPL0102_TAP_NUMBER).
    { induction n as [| n IH]; intros v Hv.
      - exists v. split; [reflexivity |]. rewrite Z.add_0_r. lia.
      - destruct (inc_effect c v) as (v1 & Hrun & _ & Heff).
        assert (H1 : tapPosition c v1
                     = Z.min (tapPosition c v + 1) TPL0102_TAP_NUMBER).
        { destruct (Z.ltb_spec (tapPosition c v) TPL0102_TAP_NUMBER).
          + rewrite (wrote_tapPosition _ _ _ _ Heff).
            rewrite inc_target_below by lia. lia.
          + destruct Heff as (Hm & _). unfold tapPosition in *.
            rewrite Hm. lia. }
        destruct (IH v1) as (v2 & Hrun2 & H2); [lia |].
        exists v2. cbn [times]. unfold bind. rewrite Hrun.
        split; [exact Hrun2 |]. rewrite H2, H1. lia. }
    destruct (Hgen k w) as (w' & Hrun & Ht);
      [unfold TPL0102_TAP_NUMBER; lia |].
    exists w'. split; [exact Hrun |]. rewrite Ht, H0. reflexivity.
  - intros Hmax.
    destruct (inc_effect c w) as (w' & Hrun & _ & Heff).
    rewrite Hmax, Z.ltb_irrefl in Heff. destruct Heff as (Hm & Hw & _).
    exists w'. repeat split; assumption.
Qed.

(** C7.  Whatever the mirror holds, zeroWiper sets it to 0 and maxWiper to
    MAX_TAP, and each puts exactly one wiper-register write on the bus,
    carrying that value. *)
Theorem zero_and_max_always_write c w :
  (exists w',
     zeroWiper (ch_id c) w = Some (tt, w') /\
     tapPosition c w' = 0 /\
     trace (Wire w') = trace (Wire w) ++ [wiper_write c 0 w]) /\
  (exists w',
     maxWiper (ch_id c) w = Some (tt, w') /\
     tapPosition c w' = TPL0102_TAP_NUMBER /\
     trace (Wire w')
     = trace (Wire w) ++ [wiper_write c TPL0102_TAP_NUMBER w]).
Proof.
  split.
  - destruct (zeroWiper_effect c w) as (w' & Hrun & Heff).
    exists w'. split; [exact Hrun |].
    split; [eapply wrote_tapPosition; eassumption | apply Heff].
  - destruct (maxWiper_effect c w) as (w' & Hrun & Heff).
    exists w'. split; [exact Hrun |].
    split; [eapply wrote_tapPosition; eassumption | apply Heff].
Qed.

End Outcome.

(** ** Absolute settings *)

Section Absolute.

Context {hdr : TPL0102_h} {board : Board}.

(** C5, as amended.  Where the C++ is defined (the mirror holds a byte, the
    [float] quotient is finite so that its rounding [tapTarget] exists, and
    [tapTarget] and its distance to the mirror fit an [int]), setValue
    derives [tapTarget = round ((desiredR * MAX_TAP) / nominalResistance)]
    with the product and the quotient each rounded to [float].  When
    [tapTarget] differs from the mirror it puts exactly one wiper-register
    write on the bus, whose value byte is [tapTarget] reduced modulo 256,
    and none otherwise; it returns [tapTarget] reduced modulo 256.  For a
    [tapTarget] within [0, 255] the byte written and the value returned are
    [tapTarget] itself. *)
Theorem setValue_writes_byte_of_target c r w x :
  byte (tapPosition c w) ->
  round (fdiv (fmul r (float_of_int 64)) (_nominalResistance (this w)))
  = Some x ->
  -2147483392 <= x <= 2147483647 ->
  exists w',
    setValue (ch_id c) r w = Some (u8 x, w') /\
    trace (Wire w')
    = trace (Wire w) ++
      (if x =? tapPosition c w then []
       else [BusWrite (address (this w)) [wiper_reg c; u8 x] true
                      (hd 0 (faults (Wire w)))]) /\
    (0 <= x <= 255 -> u8 x = x).
Proof.
  intros Hcur Htgt Hx.
  destruct (setValue_effect c r w x Hcur Htgt Hx) as (w' & Hrun & Heff).
  exists w'. split; [exact Hrun |]. split.
  - destruct (x =? tapPosition c w).
    + destruct Heff as ((_ & Hw & _) & _). rewrite Hw, app_nil_r. reflexivity.
    + destruct Heff as (_ & Htr & _). rewrite Htr.
      unfold wiper_write. rewrite u8_idem. reflexivity.
  - intros Hb. apply u8_small. unfold byte. lia.
Qed.

(** C6, as amended.  Two calls of setTap(ch, t) in a row put at most one
    wiper-register write on the bus: exactly one when the mirror differed
    from [t] before the first call, none when it already held [t].  In both
    cases the first call leaves the mirror at [t] and the second call leaves
    the bus and the mirror as it found them. *)
Theorem setTap_twice_writes_at_most_once c t w :
  byte (tapPosition c w) -> byte t ->
  exists w1 w2,
    setTap (ch_id c) t w = Some (t, w1) /\
    setTap (ch_id c) t w1 = Some (t, w2) /\
    tapPosition c w1 = t /\
    Wire w2 = Wire w1 /\
    _tapPointer (this w2) = _tapPointer (this w1) /\
    trace (Wire w2)
    = trace (Wire w) ++
      (if t =? tapPosition c w then [] else [wiper_write c t w]).
Proof.
  intros Hcur Ht.
  destruct (setTap_effect c t w Hcur Ht) as (w1 & Hrun1 & Heff1).
  assert (Hpos : tapPosition c w1 = t).
  { destruct (Z.eqb_spec t (tapPosition c w)) as [Heq | Hne].
    - destruct Heff1 as ((Hm & _) & _). unfold tapPosition in *.
      rewrite Hm. symmetry. exact Heq.
    - eapply wrote_tapPosition. eassumption. }
  assert (Hcur1 : byte (tapPosition c w1)) by (rewrite Hpos; exact Ht).
  destruct (setTap_effect c t w1 Hcur1 Ht) as (w2 & Hrun2 & Heff2).
  rewrite Hpos, Z.eqb_refl in Heff2. destruct Heff2 as ((Hm2 & Hw2 & _) & _).
  exists w1, w2. repeat split; try assumption.
  rewrite Hw2.
  destruct (t =? tapPosition c w).
  - destruct Heff1 as ((_ & Hw1 & _) & _). rewrite Hw1, app_nil_r. reflexivity.
  - apply Heff1.
Qed.

Lemma wiper_effect c w :
  exists w',
    wiper (ch_id c) w
    = Some (float_of_int (Z.quot (tapPosition c w) TPL0102_TAP_NUMBER), w') /\
    _tapPointer (this w') = _tapPointer (this w) /\
    Wire w' = Wire w.
Proof.
  open_world w. destruct c; drv_unfold; crank;
    eexists; repeat split; reflexivity.
Qed.



(** The operations that assign the cursor in their first statement. *)
Lemma siblings_set_cursor c w :
  cursor_after (inc (ch_id c)) w = Some (ch_id c) /\
  cursor_after (dec (ch_id c)) w = Some (ch_id c) /\
  cursor_after (zeroWiper (ch_id c)) w = Some (ch_id c) /\
  cursor_after (maxWiper (ch_id c)) w = Some (ch_id c) /\
  cursor_after (taps (ch_id c)) w = Some (ch_id c) /\
  cursor_after (wiper (ch_id c)) w = Some (ch_id c) /\
  cursor_after (readValue (ch_id c)) w = Some (ch_id c) /\
  cursor_after (setChannel (ch_id c)) w = Some (ch_id c).
Proof.
  open_world w. unfold cursor_after, run.
  destruct c, dbg, leds; drv_unfold; crank; repeat split; reflexivity.
Qed.

(** setTap and setValue assign the cursor only through [dataWrite]: a call
    that finds the mirror at its target leaves the cursor where it was. *)
Lemma setTap_unchanged_leaves_cursor c w :
  byte (tapPosition c w) ->
  cursor_after (setTap (ch_id c) (tapPosition c w)) w
  = Some (_selectedChannel (this w)).
Proof.
  intros Hcur.
  destruct (setTap_effect c _ w Hcur Hcur) as (w' & Hrun & Heff).
  rewrite Z.eqb_refl in Heff. destruct Heff as (_ & Hsel).
  unfold cursor_after, run. rewrite Hrun. cbn. rewrite Hsel. reflexivity.
Qed.

End Absolute.

(** ** The control register and initialisation *)

Lemma slave_send_one s : slave_send s 1 = [u8 (regs s (pointer s))].
Proof.
  unfold slave_send. change (Z.to_nat 1) with 1%nat. cbn [seq map].
  change (Z.of_nat 0) with 0. rewrite Z.add_0_r. reflexivity.
Qed.

Lemma u8_lxor_l a m : u8 (Z.lxor (u8 a) m) = u8 (Z.lxor a m).
Proof.
  rewrite !u8_land. apply Z.bits_inj'. intros n Hn.
  rewrite !Z.land_spec, !Z.lxor_spec, Z.land_spec.
  destruct (Z.testbit a n), (Z.testbit m n), (Z.testbit 255 n); reflexivity.
Qed.

Lemma u8_s8 z : u8 (s8 z) = u8 z.
Proof.
  unfold s8. destruct (u8 z <? 128); [apply u8_idem |].
  unfold u8. rewrite Zminus_mod_idemp_l.
  replace (z - 256) with (z + (-1) * 256) by lia. apply Z_mod_plus_full.
Qed.

(** Whether [char] is signed or not, the low eight bits of [ACR_VALUE |
    mask] and [ACR_VALUE ^ mask] are those computed from the unsigned
    value. *)
Lemma char_sign_irrelevant z m :
  u8 (Z.lor (s8 z) m) = u8 (Z.lor (u8 z) m) /\
  u8 (Z.lxor (s8 z) m) = u8 (Z.lxor (u8 z) m).
Proof.
  assert (Hb : forall n, Z.testbit (s8 z) n && Z.testbit 255 n
                         = Z.testbit (u8 z) n && Z.testbit 255 n).
  { intros n. rewrite <- !Z.land_spec, <- !u8_land, u8_s8, u8_idem.
    reflexivity. }
  set (a := s8 z) in *. set (b := u8 z) in *.
  split; rewrite !u8_land; apply Z.bits_inj'; intros n _;
    specialize (Hb n);
    rewrite !Z.land_spec, ?Z.lor_spec, ?Z.lxor_spec;
    destruct (Z.testbit a n), (Z.testbit b n), (Z.testbit m n),
      (Z.testbit 255 n); try reflexivity; discriminate.
Qed.

Lemma lxor_twice a m : u8 (Z.lxor (u8 (Z.lxor (u8 a) m)) m) = u8 a.
Proof.
  rewrite u8_lxor_l, Z.lxor_assoc, Z.lxor_nilpotent, Z.lxor_0_r.
  apply u8_idem.
Qed.

Lemma lxor_clears a m : Z.land a m = m -> Z.land (u8 (Z.lxor a m)) m = 0.
Proof.
  intros H. rewrite u8_land. apply Z.bits_inj'. intros n Hn.
  assert (Hb : Z.testbit (Z.land a m) n = Z.testbit m n) by (rewrite H; reflexivity).
  rewrite Z.land_spec in Hb.
  rewrite !Z.land_spec, Z.lxor_spec, Z.bits_0.
  destruct (Z.testbit a n), (Z.testbit m n), (Z.testbit 255 n);
    try reflexivity; discriminate.
Qed.

Ltac bus_unfold :=
  unfold switchPot, begin, begin_nomRes, begin_sync, readRegistersStatus,
    _regs;
  unfold tapPointer_at, tapPointer_assign, Serial_println, Wire_begin,
    Wire_setClock, Wire_beginTransmission, Wire_write, Wire_endTransmission,
    Wire_requestFrom.

Ltac bus_simpl :=
  repeat (progress (drv_simpl;
                    cbv beta iota zeta delta [while_Wire_available Wire_read];
                    cbn [hd tl Z.eqb drain for_each rxBuffer Wire];
                    rewrite ?slave_send_one)).

Section Control.

Context {hdr : TPL0102_h} {board : Board}.

Lemma switchPot_effect c st w :
  faults (Wire w) = [] ->
  exists w',
    switchPot (ch_id c) st w = Some (tt, w') /\
    control_byte w'
    = (if st =? HIGH then u8 (Z.lor (control_byte w) SHUTDOWN_MASK)
       else if st =? LOW then u8 (Z.lxor (control_byte w) SHUTDOWN_MASK)
       else u8 (Z.lor (control_byte w) 0)) /\
    trace (Wire w') = trace (Wire w) ++ control_exchange w (control_byte w') /\
    faults (Wire w') = [] /\
    _selectedChannel (this w') = ch_id c.
Proof.
  open_world w. drv_simpl. intros ->.
  destruct c; bus_unfold; bus_simpl;
    (eexists; split; [reflexivity |]);
    unfold control_exchange, control_byte; drv_simpl;
    rewrite Z.eqb_refl, <- ?app_assoc; cbn [app];
    destruct (st =? HIGH), (st =? LOW); rewrite ?u8_idem;
    repeat split; reflexivity.
Qed.

(** C4.  On a bus that acknowledges, switchPot reads the control byte [X]
    and writes back [X OR mask] when [st] is HIGH and [X XOR mask] when [st]
    is LOW.  Two calls with LOW in a row therefore restore [X]: from an
    enabled channel the first call clears the shutdown bits and the second
    sets them again. *)
Theorem switchPot_toggles_on_disable c w :
  faults (Wire w) = [] ->
  (exists w',
     switchPot (ch_id c) HIGH w = Some (tt, w') /\
     control_byte w' = u8 (Z.lor (control_byte w) SHUTDOWN_MASK) /\
     trace (Wire w')
     = trace (Wire w) ++
       control_exchange w (u8 (Z.lor (control_byte w) SHUTDOWN_MASK))) /\
  (exists w1 w2,
     switchPot (ch_id c) LOW w = Some (tt, w1) /\
     control_byte w1 = u8 (Z.lxor (control_byte w) SHUTDOWN_MASK) /\
     trace (Wire w1)
     = trace (Wire w) ++
       control_exchange w (u8 (Z.lxor (control_byte w) SHUTDOWN_MASK)) /\
     switchPot (ch_id c) LOW w1 = Some (tt, w2) /\
     control_byte w2 = control_byte w /\
     trace (Wire w2)
     = trace (Wire w1) ++ control_exchange w1 (control_byte w) /\
     (enabled (control_byte w) ->
      disabled (control_byte w1) /\ enabled (control_byte w2))).
Proof.
  intros Hf. split.
  - destruct (switchPot_effect c HIGH w Hf) as (w' & Hrun & Hb & Htr & _).
    change (HIGH =? HIGH) with true in Hb. cbv iota in Hb.
    exists w'. rewrite <- Hb. auto.
  - destruct (switchPot_effect c LOW w Hf) as (w1 & Hrun1 & Hb1 & Htr1 & Hf1 & _).
    change (LOW =? HIGH) with false in Hb1.
    change (LOW =? LOW) with true in Hb1. cbv iota in Hb1.
    destruct (switchPot_effect c LOW w1 Hf1) as (w2 & Hrun2 & Hb2 & Htr2 & _).
    change (LOW =? HIGH) with false in Hb2.
    change (LOW =? LOW) with true in Hb2. cbv iota in Hb2.
    assert (Hback : control_byte w2 = control_byte w).
    { rewrite Hb2, Hb1. unfold control_byte at 1. rewrite lxor_twice.
      reflexivity. }
    exists w1, w2. rewrite <- Hb1. rewrite <- Hback at 2.
    repeat split; try assumption.
    + unfold disabled. rewrite Hb1. apply lxor_clears. assumption.
    + rewrite Hback. assumption.
Qed.

Ltac crank_bus :=
  bus_simpl;
  repeat (match goal with
          | |- context [drain (if ?c then _ else _)] => destruct c eqn:?
          | |- context [when ?c _] => destruct c eqn:?
          end; bus_simpl).

(** switchPot assigns the cursor first too, whatever the bus answers. *)
Lemma switchPot_sets_cursor c st w :
  cursor_after (switchPot (ch_id c) st) w = Some (ch_id c).
Proof.
  open_world w. unfold cursor_after, run.
  destruct c; bus_unfold; crank_bus; reflexivity.
Qed.

Lemma begin_sync_frame w :
  exists w',
    begin_sync w = Some (tt, w') /\
    clock_hz (Wire w') = clock_hz (Wire w) /\
    configuration w' = configuration w.
Proof.
  open_world w. destruct dbg; bus_unfold; crank_bus;
    (eexists; split; [reflexivity |]);
    (split; [reflexivity |]);
    unfold configuration; drv_simpl;
    rewrite !filter_app; cbn [filter]; rewrite !app_nil_r; reflexivity.
Qed.

(** C10.  Both overloads of begin set the bus clock to STANDARD whatever
    the address and the speed argument: the bus configuration calls they add
    are [Wire.begin(SDA, SCL)] and [Wire.setClock(STANDARD)], and the world
    they leave is the same for any two values of the speed argument. *)
Theorem begin_ignores_speed addr nomRes speed speed' w :
  begin addr speed w = begin addr speed' w /\
  begin_nomRes addr nomRes speed w = begin_nomRes addr nomRes speed' w /\
  (exists w',
     begin addr speed w = Some (tt, w') /\
     clock_hz (Wire w') = STANDARD /\
     configuration w'
     = configuration w ++ [BusBegin SDA SCL; BusClock STANDARD]) /\
  (exists w',
     begin_nomRes addr nomRes speed w = Some (tt, w') /\
     clock_hz (Wire w') = STANDARD /\
     configuration w'
     = configuration w ++ [BusBegin SDA SCL; BusClock STANDARD]).
Proof.
  split; [reflexivity |]. split; [reflexivity |].
  open_world w. split.
  - unfold begin, Wire_begin, Wire_setClock. drv_simpl.
    match goal with
    | |- context [begin_sync ?w0] =>
        destruct (begin_sync_frame w0) as (w' & Hrun & Hhz & Hcfg)
    end.
    exists w'. split; [exact Hrun |]. split; [exact Hhz |].
    rewrite Hcfg. unfold configuration. drv_simpl.
    rewrite !filter_app. cbn [filter]. rewrite <- app_assoc. reflexivity.
  - unfold begin_nomRes, Wire_begin, Wire_setClock. drv_simpl.
    match goal with
    | |- context [begin_sync ?w0] =>
        destruct (begin_sync_frame w0) as (w' & Hrun & Hhz & Hcfg)
    end.
    exists w'. split; [exact Hrun |]. split; [exact Hhz |].
    rewrite Hcfg. unfold configuration. drv_simpl.
    rewrite !filter_app. cbn [filter]. rewrite <- app_assoc. reflexivity.
Qed.

End Control.

(** ** The properties on the bench *)

(** C1, witness: five operations with in-range requests, from both mirrors
    at 0. *)
Lemma tap_mirror_stays_in_range_bench :
  exists w',
    exec_all (hdr := datasheet)
      (firstn 5 [OpInc CH_A; OpSetTap CH_B 7; OpSetValue CH_A 2500;
                 OpDec CH_B; OpMaxWiper CH_A])
      (bench 0 0 [])
    = Some (tt, w') /\
    tap_in_range w'.
Proof.
  apply (tap_mirror_stays_in_range (hdr := datasheet)).
  - intros c. destruct c; cbn; unfold TPL0102_TAP_NUMBER; lia.
  - repeat constructor; vm_compute; try split; discriminate.
Defined.

(** C1, counterexample: with both mirrors at 0, setTap(0, 100) leaves the
    mirror of channel A at 100, above MAX_TAP. *)
Lemma setTap_leaves_tap_range :
  tap_in_range (bench 0 0 []) /\
  observe (exec (hdr := datasheet) (OpSetTap CH_A 100)) (bench 0 0 [])
          (fun _ w' => tapPosition CH_A w')
  = Some 100 /\
  ~ 100 <= TPL0102_TAP_NUMBER.
Proof.
  split; [| split].
  - intros c. destruct c; cbn; unfold TPL0102_TAP_NUMBER; lia.
  - vm_compute. reflexivity.
  - unfold TPL0102_TAP_NUMBER. lia.
Qed.



(** C3, witness: seventy calls of inc from tap 0 end at 64, and inc at 64
    changes neither bus nor mirror. *)
Lemma inc_counts_up_and_saturates_bench :
  (exists w',
     times 70 (inc (hdr := datasheet) 0) (bench 0 0 []) = Some (tt, w') /\
     tapPosition CH_A w' = 64) /\
  (exists w',
     inc (hdr := datasheet) 0 (bench 64 0 []) = Some (tt, w') /\
     Wire w' = Wire (bench 64 0 []) /\
     _tapPointer (this w') = _tapPointer (this (bench 64 0 []))).
Proof.
  split.
  - exact (proj1 (inc_counts_up_and_saturates (hdr := datasheet) CH_A
                    (bench 0 0 [])) eq_refl 70%nat).
  - exact (proj2 (inc_counts_up_and_saturates (hdr := datasheet) CH_A
                    (bench 64 0 [])) eq_refl).
Defined.

(** C4, witness: the bench device starts enabled (control byte 64); one
    disable clears the byte, a second one restores 64. *)
Lemma switchPot_toggles_on_disable_bench :
  exists w1 w2,
    switchPot (hdr := datasheet) 0 LOW (bench 0 0 []) = Some (tt, w1) /\
    control_byte (hdr := datasheet) w1 = 0 /\
    switchPot (hdr := datasheet) 0 LOW w1 = Some (tt, w2) /\
    control_byte (hdr := datasheet) w2 = 64.
Proof.
  destruct (proj2 (switchPot_toggles_on_disable (hdr := datasheet) CH_A
                     (bench 0 0 []) eq_refl))
    as (w1 & w2 & Hrun1 & Hb1 & _ & Hrun2 & Hb2 & _).
  exists w1, w2. split; [exact Hrun1 |]. split; [exact Hb1 |].
  split; [exact Hrun2 | exact Hb2].
Defined.

(** C5, counterexample: with nominal resistance 10000, setValue(0, 50000)
    aims at tap 320, but the byte written and the value returned are 64. *)
Lemma setValue_truncates_target :
  tap_target 50000 (_nominalResistance (this (bench 0 0 []))) = Some 320 /\
  observe (setValue (hdr := datasheet) 0 50000) (bench 0 0 [])
          (fun v w' => (v, trace (Wire w')))
  = Some (64, [BusWrite 80 [0; 64] true 0]).
Proof. split; vm_compute; reflexivity. Qed.

(** C5, witness: the scenario of the spec.  With nominal resistance 10000
    and MAX_TAP = 64, setValue(A, 2500.0) aims at tap 16, puts one write of
    16 on the bus and returns 16. *)
Lemma setValue_2500_ohm :
  tap_target 2500 10000 = Some 16 /\
  exists w',
    setValue (hdr := datasheet) 0 2500 (bench 0 0 []) = Some (16, w') /\
    trace (Wire w') = [BusWrite 80 [0; 16] true 0].
Proof.
  split; [vm_compute; reflexivity |].
  destruct (setValue_writes_byte_of_target (hdr := datasheet) CH_A 2500
              (bench 0 0 []) 16) as (w' & Hrun & Htr & _).
  - cbn. unfold byte. lia.
  - vm_compute. reflexivity.
  - lia.
  - exists w'. split; [exact Hrun | exact Htr].
Defined.

(** The quotient is rounded to [float] before it is rounded to an integer:
    with desiredR = 10320001 / 1024 and nominal resistance 10240001 / 1024
    the exact quotient is below 64.5, its [float] is 64.5, and the tap
    target is 65. *)
Lemma setValue_rounds_the_quotient_twice :
  2 * (10320001 * 64) < 129 * 10240001 /\
  fdiv (fmul (float_of_dyadic 10320001 (-10)) (float_of_int 64))
       (float_of_dyadic 10240001 (-10))
  = float_of_dyadic 129 (-1) /\
  tap_target (float_of_dyadic 10320001 (-10)) (float_of_dyadic 10240001 (-10))
  = Some 65.
Proof. split; [lia | split; vm_compute; reflexivity]. Qed.

(** A nominal resistance of zero makes the quotient an infinity or a NaN,
    which has no [int] value: setValue is undefined there. *)
Lemma setValue_undefined_without_nominal :
  tap_target 2500 0 = None /\
  tap_target 0 0 = None /\
  setValue (hdr := datasheet) 0 2500
    {| this := set_nominalResistance 0 (driver_at 0 0);
       Wire := bus_with 0 0 64 []; Serial := []; pins := [];
       timer := {| ticks := fun k => 100 * Z.of_nat k; reads := 0 |} |}
  = None.
Proof. repeat split; vm_compute; reflexivity. Qed.

(** C6, counterexample: with the mirror of channel A already at 5, two
    calls of setTap(0, 5) put no write at all on the bus. *)
Lemma setTap_twice_may_write_nothing :
  trace (Wire (bench 5 0 [])) = [] /\
  observe (bind (setTap (hdr := datasheet) 0 5)
                (fun _ => setTap (hdr := datasheet) 0 5))
          (bench 5 0 [])
          (fun v w' => (v, trace (Wire w')))
  = Some (5, []).
Proof. split; vm_compute; reflexivity. Qed.

(** C6, witness: from tap 0, two calls of setTap(0, 5) put one write on the
    bus. *)
Lemma setTap_twice_bench :
  exists w1 w2,
    setTap (hdr := datasheet) 0 5 (bench 0 0 []) = Some (5, w1) /\
    setTap (hdr := datasheet) 0 5 w1 = Some (5, w2) /\
    trace (Wire w2) = [BusWrite 80 [0; 5] true 0].
Proof.
  destruct (setTap_twice_writes_at_most_once (hdr := datasheet) CH_A 5
              (bench 0 0 []))
    as (w1 & w2 & Hrun1 & Hrun2 & _ & _ & _ & Htr).
  - cbn. unfold byte. lia.
  - unfold byte. lia.
  - exists w1, w2. split; [exact Hrun1 |]. split; [exact Hrun2 | exact Htr].
Defined.



(** The integer division drops the fraction: with the mirror at 32 and a
    nominal resistance of 10000, wiper returns 0 and readValue returns 0,
    where the fractions would be 1/2 and 5000. *)
Lemma wiper_drops_the_fraction :
  observe (wiper 0) (bench 32 0 []) (fun q _ => q)
  = Some (float_of_int 0) /\
  observe (readValue 0) (bench 32 0 []) (fun q _ => q)
  = Some (float_of_int 0) /\
  observe (readValue 0) (bench 64 0 []) (fun q _ => q)
  = Some (float_of_int 10000).
Proof. repeat split; vm_compute; reflexivity. Qed.

(** C9, the code at the failing input.  With the cursor on channel A and
    the mirror of channel B at 5, setTap(1, 5) returns with the cursor still
    on channel A; so does setValue(1, 2500.0) with the mirror of channel B
    at 16.  When they do write, both leave the cursor on channel B. *)
Theorem setTap_at_target_skips_cursor :
  cursor_after (setTap (hdr := datasheet) 1 5) (bench 0 5 []) = Some 0 /\
  cursor_after (setValue (hdr := datasheet) 1 2500) (bench 0 16 []) = Some 0 /\
  cursor_after (setTap (hdr := datasheet) 1 6) (bench 0 5 []) = Some 1 /\
  cursor_after (setValue (hdr := datasheet) 1 2500) (bench 0 15 []) = Some 1.
Proof. repeat split; vm_compute; reflexivity. Qed.

(** ** Further properties of the relative operations *)

Section Relative.

Context {hdr : TPL0102_h} {board : Board}.

Lemma idle_tapPosition c w w' : idle w w' -> tapPosition c w' = tapPosition c w.
Proof. intros (Hm & _). unfold tapPosition. rewrite Hm. reflexivity. Qed.

(** X1.  From a mirror within [0, MAX_TAP], [k] calls of dec leave it at
    [max (t - k) 0]; a call of dec with the mirror at 0 leaves the bus and
    the mirror as they were. *)
Theorem dec_counts_down_and_saturates c w :
  (0 <= tapPosition c w <= TPL0102_TAP_NUMBER ->
   forall k, exists w',
     times k (dec (ch_id c)) w = Some (tt, w') /\
     tapPosition c w' = Z.max (tapPosition c w - Z.of_nat k) 0) /\
  (tapPosition c w = 0 ->
   exists w',
     dec (ch_id c) w = Some (tt, w') /\
     Wire w' = Wire w /\
     _tapPointer (this w') = _tapPointer (this w)).
Proof.
  split.
  - intros Hr k. revert w Hr.
    induction k as [| k IH]; intros w Hr.
    + exists w. split; [reflexivity |]. change (Z.of_nat 0) with 0. lia.
    + destruct (dec_effect c w) as (w1 & Hrun & _ & Heff).
      assert (H1 : tapPosition c w1 = Z.max (tapPosition c w - 1) 0).
      { destruct (Z.ltb_spec 0 (tapPosition c w)).
        - rewrite (wrote_tapPosition _ _ _ _ Heff).
          rewrite dec_target_above by lia. lia.
        - rewrite (idle_tapPosition _ _ _ Heff). lia. }
      destruct (IH w1) as (w2 & Hrun2 & H2);
        [unfold TPL0102_TAP_NUMBER in *; lia |].
      exists w2. cbn [times]. unfold bind. rewrite Hrun.
      split; [exact Hrun2 |]. rewrite H2, H1. lia.
  - intros H0.
    destruct (dec_effect c w) as (w' & Hrun & _ & Heff).
    rewrite H0, Z.ltb_irrefl in Heff. destruct Heff as (Hm & Hw & _).
    exists w'. repeat split; assumption.
Qed.

(** X2.  Below MAX_TAP, inc followed by dec brings the mirror back to where
    it was, with two wiper-register writes on the bus: the tap above, then
    the original tap.  Above 0, dec followed by inc does the same through
    the tap below. *)
Theorem inc_dec_round_trip c w :
  (0 <= tapPosition c w < TPL0102_TAP_NUMBER ->
   exists w1 w2,
     inc (ch_id c) w = Some (tt, w1) /\
     dec (ch_id c) w1 = Some (tt, w2) /\
     tapPosition c w2 = tapPosition c w /\
     trace (Wire w2)
     = trace (Wire w) ++ [wiper_write c (tapPosition c w + 1) w;
                          wiper_write c (tapPosition c w) w1]) /\
  (0 < tapPosition c w <= TPL0102_TAP_NUMBER ->
   exists w1 w2,
     dec (ch_id c) w = Some (tt, w1) /\
     inc (ch_id c) w1 = Some (tt, w2) /\
     tapPosition c w2 = tapPosition c w /\
     trace (Wire w2)
     = trace (Wire w) ++ [wiper_write c (tapPosition c w - 1) w;
                          wiper_write c (tapPosition c w) w1]).
Proof.
  split; intros Hr.
  - destruct (inc_effect c w) as (w1 & Hrun1 & _ & Heff1).
    destruct (Z.ltb_spec (tapPosition c w) TPL0102_TAP_NUMBER); [| lia].
    rewrite inc_target_below in Heff1 by lia.
    pose proof (wrote_tapPosition _ _ _ _ Heff1) as H1.
    destruct (dec_effect c w1) as (w2 & Hrun2 & _ & Heff2).
    rewrite H1 in Heff2.
    destruct (Z.ltb_spec 0 (tapPosition c w + 1)); [| lia].
    rewrite dec_target_above in Heff2
      by (unfold TPL0102_TAP_NUMBER in *; lia).
    replace (tapPosition c w + 1 - 1) with (tapPosition c w) in Heff2 by lia.
    exists w1, w2. split; [exact Hrun1 |]. split; [exact Hrun2 |].
    split; [eapply wrote_tapPosition; eassumption |].
    destruct Heff1 as (_ & Ht1 & _). destruct Heff2 as (_ & Ht2 & _).
    rewrite Ht2, Ht1, <- app_assoc. reflexivity.
  - destruct (dec_effect c w) as (w1 & Hrun1 & _ & Heff1).
    destruct (Z.ltb_spec 0 (tapPosition c w)); [| lia].
    rewrite dec_target_above in Heff1 by lia.
    pose proof (wrote_tapPosition _ _ _ _ Heff1) as H1.
    destruct (inc_effect c w1) as (w2 & Hrun2 & _ & Heff2).
    rewrite H1 in Heff2.
    destruct (Z.ltb_spec (tapPosition c w - 1) TPL0102_TAP_NUMBER); [| lia].
    rewrite inc_target_below in Heff2 by lia.
    replace (tapPosition c w - 1 + 1) with (tapPosition c w) in Heff2 by lia.
    exists w1, w2. split; [exact Hrun1 |]. split; [exact Hrun2 |].
    split; [eapply wrote_tapPosition; eassumption |].
    destruct Heff1 as (_ & Ht1 & _). destruct Heff2 as (_ & Ht2 & _).
    rewrite Ht2, Ht1, <- app_assoc. reflexivity.
Qed.

End Relative.

(** ** Further properties of the wiper writes *)

Section Writes.

Context {hdr : TPL0102_h} {board : Board}.

Lemma switch_on_channel (A : Type) (ch : Z) (a b : A) :
  match ch with
  | 0 => a
  | 1 => b
  | _ => a
  end = if ch =? 1 then b else a.
Proof. destruct ch as [| [p | p |] | p]; reflexivity. Qed.

(** X3.  dataWrite(ch, val) puts one transfer on the bus, to wiper register
    B when [ch] is 1 and to wiper register A for every other [ch] (0 or
    not), carrying [val]; it sets the cursor to [ch] and leaves the mirror
    alone.  The device takes the value when it acknowledges and keeps its
    registers when it does not. *)
Theorem dataWrite_addresses_register ch val w :
  exists w',
    dataWrite ch val w = Some (tt, w') /\
    trace (Wire w')
    = trace (Wire w) ++
      [BusWrite (address (this w))
                [if ch =? 1 then u8 WRB else u8 WRA; u8 val] true
                (hd 0 (faults (Wire w)))] /\
    (hd 0 (faults (Wire w)) = 0 ->
     forall r,
       regs (slave (Wire w')) r
       = if r =? (if ch =? 1 then u8 WRB else u8 WRA) then u8 val
         else regs (slave (Wire w)) r) /\
    (hd 0 (faults (Wire w)) <> 0 -> slave (Wire w') = slave (Wire w)) /\
    _tapPointer (this w') = _tapPointer (this w) /\
    _selectedChannel (this w') = ch.
Proof.
  open_world w. unfold dataWrite. rewrite switch_on_channel.
  destruct dbg; drv_unfold; crank; (eexists; split; [reflexivity |]);
    drv_simpl.
  all: destruct (ch =? 1); cbn [app].
  all: split; [reflexivity |]; split; [| split; [| split; reflexivity]].
  all: try (intros H0; rewrite H0; reflexivity).
  all: intros Hne; apply Z.eqb_neq in Hne; rewrite Hne; reflexivity.
Qed.

(** One operation on a bus that acknowledges keeps mirror and device in
    step. *)
Lemma exec_keeps_sync o w w' :
  faults (Wire w) = [] ->
  u8 WRA <> u8 WRB ->
  in_sync w ->
  exec o w = Some (tt, w') ->
  in_sync w' /\ faults (Wire w') = [].
Proof.
  open_world w. drv_simpl. intros -> Hne Hs.
  assert (Hab : (u8 WRA =? u8 WRB) = false) by (apply Z.eqb_neq; exact Hne).
  assert (Hba : (u8 WRB =? u8 WRA) = false)
    by (apply Z.eqb_neq; intros E; apply Hne; symmetry; exact E).
  pose proof (Hs CH_A) as Ha. pose proof (Hs CH_B) as Hb. clear Hs.
  unfold wiper_byte, wiper_reg in Ha, Hb. drv_simpl.
  destruct o as [c | c | c r | c v | c | c]; destruct c, dbg;
    drv_unfold; crank; cbn [hd tl Z.eqb];
    intros Hrun; inversion Hrun; subst; clear Hrun;
    (split; [| reflexivity]);
    intros c'; destruct c'; unfold wiper_byte, wiper_reg; drv_simpl;
    rewrite ?Z.eqb_refl, ?Hab, ?Hba, ?u8_idem;
    first [assumption | reflexivity].
Qed.

(** X4.  On a bus that acknowledges every transfer, with the two wiper
    registers at different addresses, a sequence of inc, dec, setValue,
    setTap, zeroWiper and maxWiper calls that starts with each mirror equal
    to the device's wiper register ends with each mirror equal to the
    device's wiper register. *)
Theorem mirror_tracks_device os :
  forall w w',
    faults (Wire w) = [] ->
    u8 WRA <> u8 WRB ->
    in_sync w ->
    exec_all os w = Some (tt, w') ->
    in_sync w'.
Proof.
  induction os as [| o os IH]; intros w w' Hf Hne Hs Hrun.
  - cbn in Hrun. unfold ret in Hrun. inversion Hrun; subst. exact Hs.
  - cbn [exec_all] in Hrun. unfold bind in Hrun.
    destruct (exec o w) as [[[] w1] |] eqn:Ho; [| discriminate].
    destruct (exec_keeps_sync o w w1 Hf Hne Hs Ho) as (Hs1 & Hf1).
    exact (IH w1 w' Hf1 Hne Hs1 Hrun).
Qed.

(** X5.  An operation on one channel leaves the mirror of the other channel
    as it was and puts at most one transfer on the bus, a write to its own
    channel's wiper register. *)
Theorem other_channel_untouched o w w' :
  exec o w = Some (tt, w') ->
  tapPosition (other (op_channel o)) w'
  = tapPosition (other (op_channel o)) w /\
  (trace (Wire w') = trace (Wire w) \/
   exists v, trace (Wire w') = trace (Wire w) ++ [wiper_write (op_channel o) v w]).
Proof.
  open_world w.
  destruct o as [c | c | c r | c v | c | c]; destruct c, dbg;
    drv_unfold; crank;
    intros Hrun; inversion Hrun; subst; clear Hrun;
    (split; [reflexivity |]);
    unfold wiper_write, wiper_reg; drv_simpl;
    first [left; reflexivity | right; eexists; reflexivity].
Qed.

End Writes.

(** ** Further properties of the read-back *)

Ltac crank_reads :=
  bus_simpl;
  repeat (match goal with
          | |- context [drain (if ?c then _ else _)] => destruct c eqn:?
          | |- context [when ?c _] => destruct c eqn:?
          end; bus_simpl).

Section ReadBack.

Context {hdr : TPL0102_h} {board : Board}.

(** X6.  On a bus that acknowledges every transfer, both overloads of begin
    leave each mirror equal to the byte the device holds in that channel's
    wiper register, record the three bytes read (wiper A, wiper B, control)
    in [_initialState], store the address, and leave the device's registers
    as they were; the nominal resistance is the header's default for the
    first overload and [nomRes] for the second. *)
Theorem begin_reads_back addr nomRes speed w :
  faults (Wire w) = [] ->
  (exists w',
     begin addr speed w = Some (tt, w') /\
     in_sync w' /\
     _initialState (this w')
     = (wiper_byte CH_A w, wiper_byte CH_B w, control_byte w) /\
     regs (slave (Wire w')) = regs (slave (Wire w)) /\
     address (this w') = addr /\
     _nominalResistance (this w') = TPL0102_NOMINAL_RESISTANCE) /\
  (exists w',
     begin_nomRes addr nomRes speed w = Some (tt, w') /\
     in_sync w' /\
     _initialState (this w')
     = (wiper_byte CH_A w, wiper_byte CH_B w, control_byte w) /\
     regs (slave (Wire w')) = regs (slave (Wire w)) /\
     address (this w') = addr /\
     _nominalResistance (this w') = nomRes).
Proof.
  open_world w. drv_simpl. intros ->.
  split; destruct dbg; bus_unfold; crank_reads;
    (eexists; split; [reflexivity |]);
    unfold in_sync, wiper_byte, wiper_reg, control_byte; drv_simpl;
    rewrite ?u8_idem;
    (split; [intros c; destruct c; drv_simpl; rewrite ?u8_idem; reflexivity |]);
    repeat split; reflexivity.
Qed.

(** X7.  When the device answers none of the three read requests, begin
    still succeeds: [_initialState] keeps what it held before the call and
    the mirrors are set from its first two entries. *)
Theorem begin_without_answer_keeps_stale_state addr speed w a0 r0 e0 a1 r1 e1 a2 r2 rest :
  faults (Wire w) = [a0; r0; e0; a1; r1; e1; a2; r2] ++ rest ->
  r0 <> 0 -> r1 <> 0 -> r2 <> 0 ->
  exists w',
    begin addr speed w = Some (tt, w') /\
    _initialState (this w') = _initialState (this w) /\
    _tapPointer (this w')
    = (fst (fst (_initialState (this w))), snd (fst (_initialState (this w)))) /\
    faults (Wire w') = tl rest.
Proof.
  open_world w. destruct ini as [[i0 i1] i2]. drv_simpl.
  intros -> H0 H1 H2.
  apply Z.eqb_neq in H0, H1, H2.
  destruct dbg; bus_unfold;
    repeat (progress (bus_simpl; rewrite ?H0, ?H1, ?H2));
    crank_reads;
    eexists; repeat split; reflexivity.
Qed.

(** X8.  readRegistersStatus, whatever the bus answers, leaves the tap
    mirror and the cursor as they were and does not alter the device's
    registers: only begin copies the bytes read into the mirror. *)
Theorem readRegistersStatus_leaves_mirror w :
  exists w',
    readRegistersStatus w = Some (tt, w') /\
    _tapPointer (this w') = _tapPointer (this w) /\
    _selectedChannel (this w') = _selectedChannel (this w) /\
    regs (slave (Wire w')) = regs (slave (Wire w)) /\
    List.length (trace (Wire w')) = (List.length (trace (Wire w)) + 9)%nat.
Proof.
  open_world w.
  destruct dbg; bus_unfold; crank_reads;
    (eexists; split; [reflexivity |]); drv_simpl;
    rewrite !length_app; cbn [List.length];
    repeat split; try reflexivity; try lia;
    repeat match goal with
           | |- context [if ?c then _ else _] => destruct c
           end;
    reflexivity.
Qed.

End ReadBack.

(** ** Further properties of the diagnostic read, the indicators and the
    accessors *)

Section Diagnostics.

Context {hdr : TPL0102_h} {board : Board}.

Lemma for_each_invariant (I : World -> nat -> Prop) body l :
  (forall i w n, I w n -> exists w', body i w = Some (tt, w') /\ I w' (S n)) ->
  forall w n, I w n ->
  exists w', for_each l body w = Some (tt, w') /\ I w' (n + List.length l)%nat.
Proof.
  intros Hbody. induction l as [| i l IH]; intros w n Hw.
  - exists w. split; [reflexivity |]. cbn [List.length].
    rewrite Nat.add_0_r. exact Hw.
  - destruct (Hbody i w n Hw) as (w1 & Hrun & Hw1).
    destruct (IH w1 (S n) Hw1) as (w2 & Hrun2 & Hw2).
    exists w2. cbn [for_each]. unfold bind. rewrite Hrun.
    split; [exact Hrun2 |]. cbn [List.length].
    rewrite Nat.add_succ_r. exact Hw2.
Qed.

Lemma length_upto lo n : List.length (upto lo n) = n.
Proof.
  revert lo. induction n as [| n IH]; intros lo; cbn [upto List.length];
    [reflexivity | rewrite IH; reflexivity].
Qed.

(** X9.  readDummyRegStatus, whatever the bus answers, leaves every field
    of the driver object and every register of the device as it was, and
    puts three transfers on the bus for each address from
    GENERAL_PURPOSE_START to GENERAL_PURPOSE_END: none at all when the range
    is empty. *)
Theorem readDummyRegStatus_only_reads w :
  exists w',
    readDummyRegStatus w = Some (tt, w') /\
    this w' = this w /\
    regs (slave (Wire w')) = regs (slave (Wire w)) /\
    List.length (trace (Wire w'))
    = (List.length (trace (Wire w))
       + 3 * Z.to_nat (GENERAL_PURPOSE_END - GENERAL_PURPOSE_START + 1))%nat.
Proof.
  unfold readDummyRegStatus.
  match goal with
  | |- context [for_each ?l ?body] =>
      destruct (for_each_invariant
                  (fun v n =>
                     this v = this w /\
                     regs (slave (Wire v)) = regs (slave (Wire w)) /\
                     List.length (trace (Wire v))
                     = (List.length (trace (Wire w)) + 3 * n)%nat)
                  body l) with (w := w) (n := 0%nat)
        as (w' & Hrun & Hthis & Hregs & Hlen)
  end.
  - clear. intros i v n (Hthis & Hregs & Hlen).
    rewrite <- Hthis, <- Hregs. clear Hthis Hregs.
    open_world v. drv_simpl.
    destruct dbg; bus_unfold; crank_reads;
      (eexists; split; [reflexivity |]); drv_simpl;
      rewrite !length_app, Hlen; cbn [List.length];
      (split; [reflexivity |]); (split; [| lia]);
      repeat match goal with
             | |- context [if ?c then _ else _] => destruct c
             end;
      reflexivity.
  - repeat split. lia.
  - exists w'. rewrite length_upto in Hlen. cbn [Nat.add] in Hlen.
    repeat split; assumption.
Qed.

(** X10.  With indicators configured, setChannel on channel A or B drives
    that channel's indicator HIGH and the other one LOW, in that order, and
    records the same in [_prevLEDsState]; for any other channel number the
    indicators are left alone.  Without indicators no pin is driven.  In
    every case setChannel returns its argument, sets the cursor to it and
    leaves bus and mirror untouched. *)
Theorem setChannel_drives_one_indicator w :
  (forall c,
     _ledsDefined (this w) = true ->
     exists w',
       setChannel (ch_id c) w = Some (ch_id c, w') /\
       pins w' = pins w ++ [(led c w, HIGH); (led (other c) w, LOW)] /\
       _prevLEDsState (this w') = store c HIGH (LOW, LOW) /\
       _selectedChannel (this w') = ch_id c /\
       Wire w' = Wire w /\
       _tapPointer (this w') = _tapPointer (this w)) /\
  (forall ch,
     _ledsDefined (this w) = false \/ (ch <> 0 /\ ch <> 1) ->
     exists w',
       setChannel ch w = Some (ch, w') /\
       pins w' = pins w /\
       _prevLEDsState (this w') = _prevLEDsState (this w) /\
       _selectedChannel (this w') = ch /\
       Wire w' = Wire w /\
       _tapPointer (this w') = _tapPointer (this w)).
Proof.
  open_world w. destruct bl as [la lb]. drv_simpl. split.
  - intros c ->. destruct c; drv_unfold; crank;
      (eexists; split; [reflexivity |]);
      unfold led, other; drv_simpl; rewrite <- ?app_assoc;
      repeat split; reflexivity.
  - intros ch [-> | (H0 & H1)].
    + drv_unfold; crank. eexists; repeat split; reflexivity.
    + destruct leds; drv_unfold; crank;
        destruct ch as [| [q | q |] | q]; try congruence;
        eexists; repeat split; reflexivity.
Qed.


Lemma u32_sub a b : u32 (u32 a - u32 b) = u32 (a - b).
Proof. unfold u32. symmetry. apply Zminus_mod. Qed.

(** X12.  An inc or a dec that moves the mirror reads the timer twice and
    records the time between the two readings, modulo 2^32, in [_incDelay]
    or [_decDelay]: a wrap of the timer between the readings does not spoil
    it.  An inc or dec that does not move the mirror reads no timer and
    leaves the recorded delay as it was. *)
Theorem inc_dec_record_elapsed_time c w :
  (exists w',
     inc (ch_id c) w = Some (tt, w') /\
     if tapPosition c w <? TPL0102_TAP_NUMBER
     then _incDelay (this w') = elapsed w /\
          reads (timer w') = S (S (reads (timer w)))
     else _incDelay (this w') = _incDelay (this w) /\ timer w' = timer w) /\
  (exists w',
     dec (ch_id c) w = Some (tt, w') /\
     if 0 <? tapPosition c w
     then _decDelay (this w') = elapsed w /\
          reads (timer w') = S (S (reads (timer w)))
     else _decDelay (this w') = _decDelay (this w) /\ timer w' = timer w).
Proof.
  open_world w. unfold elapsed.
  split; destruct c, dbg; drv_unfold; crank;
    (eexists; split; [reflexivity |]); drv_simpl;
    rewrite ?u32_sub; split; reflexivity.
Qed.

(** X13.  setTap reads the timer twice and records the time between the two
    readings, modulo 2^32, in [_setDelay] on every call, also when it finds
    the mirror at the requested tap and writes nothing. *)
Theorem setTap_always_records_elapsed_time c t w :
  byte (tapPosition c w) -> byte t ->
  exists w',
    setTap (ch_id c) t w = Some (t, w') /\
    _setDelay (this w') = elapsed w /\
    reads (timer w') = S (S (reads (timer w))).
Proof.
  open_world w. unfold elapsed.
  destruct c; drv_simpl; intros Hcur Ht;
    pose proof (in_int_byte_diff _ _ Hcur Ht) as Hd;
    pose proof (in_int_byte_dist _ _ Hcur Ht) as Ha;
    pose proof (u8_small t Ht) as Hu;
    destruct dbg; drv_unfold; crank; rewrite ?Hu;
    (eexists; split; [reflexivity |]); drv_simpl;
    rewrite ?u32_sub; split; reflexivity.
Qed.

End Diagnostics.

(** ** Further properties of the control register and of the diagnostics *)

Ltac by_bits :=
  apply Z.bits_inj'; intros ?n ?Hn;
  repeat match goal with
         | H : _ = _ :> Z |- _ =>
             apply (f_equal (fun z => Z.testbit z n)) in H
         end;
  repeat (rewrite Z.land_spec in * || rewrite Z.lor_spec in *
          || rewrite Z.lxor_spec in * || rewrite Z.bits_0 in *);
  repeat match goal with
         | |- context [Z.testbit ?z ?n] => destruct (Z.testbit z n)
         | H : context [Z.testbit ?z ?n] |- _ => destruct (Z.testbit z n)
         end;
  try reflexivity; try discriminate.

Section ControlBits.

Context {hdr : TPL0102_h} {board : Board}.

Lemma control_byte_u8 w : u8 (control_byte w) = control_byte w.
Proof. unfold control_byte. apply u8_idem. Qed.

(** X14.  On a bus that acknowledges, switchPot writes back a control byte
    that agrees with the byte it read on every bit outside the shutdown
    mask, whatever [st]; when [st] is neither HIGH nor LOW the byte written
    back is the byte read. *)
Theorem switchPot_preserves_other_bits c st w :
  faults (Wire w) = [] ->
  exists w',
    switchPot (ch_id c) st w = Some (tt, w') /\
    (forall n, 0 <= n -> Z.testbit SHUTDOWN_MASK n = false ->
               Z.testbit (control_byte w') n = Z.testbit (control_byte w) n) /\
    (st <> HIGH -> st <> LOW -> control_byte w' = control_byte w).
Proof.
  intros Hf.
  destruct (switchPot_effect c st w Hf) as (w' & Hrun & Hb & _).
  exists w'. split; [exact Hrun |]. rewrite Hb. split.
  - intros n Hn Hm.
    rewrite <- (control_byte_u8 w) at 4.
    destruct (st =? HIGH); [| destruct (st =? LOW)];
      rewrite !u8_land, !Z.land_spec, ?Z.lor_spec, ?Z.lxor_spec, ?Hm,
        ?Z.bits_0;
      destruct (Z.testbit (control_byte w) n); reflexivity.
  - intros Hh Hl. apply Z.eqb_neq in Hh, Hl. rewrite Hh, Hl.
    rewrite Z.lor_0_r. apply control_byte_u8.
Qed.

(** X15.  With a shutdown mask that fits a byte, on a bus that
    acknowledges: switchPot with HIGH leaves the channel enabled and a
    second call with HIGH changes nothing more, whereas switchPot with LOW on
    a channel that is already disabled enables it. *)
Theorem switchPot_enable_sets_disable_toggles c w :
  byte SHUTDOWN_MASK ->
  faults (Wire w) = [] ->
  (exists w1 w2,
     switchPot (ch_id c) HIGH w = Some (tt, w1) /\
     enabled (control_byte w1) /\
     switchPot (ch_id c) HIGH w1 = Some (tt, w2) /\
     control_byte w2 = control_byte w1) /\
  (disabled (control_byte w) ->
   exists w',
     switchPot (ch_id c) LOW w = Some (tt, w') /\
     enabled (control_byte w')).
Proof.
  intros Hm Hf. apply u8_small in Hm. rewrite u8_land in Hm.
  split.
  - destruct (switchPot_effect c HIGH w Hf) as (w1 & Hrun1 & Hb1 & _ & Hf1 & _).
    destruct (switchPot_effect c HIGH w1 Hf1) as (w2 & Hrun2 & Hb2 & _).
    change (HIGH =? HIGH) with true in Hb1, Hb2. cbv iota in Hb1, Hb2.
    exists w1, w2. split; [exact Hrun1 |]. split; [| split; [exact Hrun2 |]].
    + unfold enabled. rewrite Hb1, u8_land. clear - Hm.
      generalize dependent (control_byte w). intros x. by_bits.
    + rewrite Hb2, Hb1, !u8_land. clear.
      generalize (control_byte w). intros x. by_bits.
  - intros Hd. unfold disabled in Hd.
    destruct (switchPot_effect c LOW w Hf) as (w' & Hrun & Hb & _).
    change (LOW =? HIGH) with false in Hb.
    change (LOW =? LOW) with true in Hb. cbv iota in Hb.
    exists w'. split; [exact Hrun |].
    unfold enabled. rewrite Hb, u8_land. clear - Hm Hd.
    generalize dependent (control_byte w). intros x Hd. by_bits.
Qed.

(** X16.  When the device does not answer the read request, switchPot goes
    on with a control byte of 0: with HIGH and with LOW alike it writes the
    bare shutdown mask to the control register, and 0 for any other [st]. *)
Theorem switchPot_without_answer_writes_mask c st w a r rest :
  faults (Wire w) = a :: r :: rest ->
  r <> 0 ->
  exists w',
    switchPot (ch_id c) st w = Some (tt, w') /\
    trace (Wire w')
    = trace (Wire w) ++
      [BusWrite (address (this w)) [u8 ACR] false a;
       BusRequest (address (this w)) 1 false [];
       BusWrite (address (this w)) [] true (hd 0 rest);
       BusWrite (address (this w))
                [u8 ACR;
                 if (st =? HIGH) || (st =? LOW) then u8 SHUTDOWN_MASK else 0]
                true (hd 0 (tl rest))].
Proof.
  open_world w. drv_simpl. intros -> Hr. apply Z.eqb_neq in Hr.
  destruct c; bus_unfold;
    repeat (progress (bus_simpl; rewrite ?Hr));
    (eexists; split; [reflexivity |]); drv_simpl;
    rewrite <- ?app_assoc; cbn [app];
    destruct (st =? HIGH), (st =? LOW); cbn [orb];
    rewrite ?u8_idem; reflexivity.
Qed.


End ControlBits.

(** ** Further properties of the absolute settings *)

Section Endpoints.

Context {hdr : TPL0102_h} {board : Board}.

(** X18.  After maxWiper, wiper returns 1; after zeroWiper it returns 0,
    whatever the mirror held before and whatever the bus answered. *)
Theorem wiper_at_the_ends c w :
  (exists w1 w2,
     maxWiper (ch_id c) w = Some (tt, w1) /\
     wiper (ch_id c) w1 = Some (float_of_int 1, w2)) /\
  (exists w1 w2,
     zeroWiper (ch_id c) w = Some (tt, w1) /\
     wiper (ch_id c) w1 = Some (float_of_int 0, w2)).
Proof.
  split.
  - destruct (maxWiper_effect c w) as (w1 & Hrun & Heff).
    destruct (wiper_effect c w1) as (w2 & Hw & _).
    rewrite (wrote_tapPosition _ _ _ _ Heff) in Hw.
    exists w1, w2. split; [exact Hrun | exact Hw].
  - destruct (zeroWiper_effect c w) as (w1 & Hrun & Heff).
    destruct (wiper_effect c w1) as (w2 & Hw & _).
    rewrite (wrote_tapPosition _ _ _ _ Heff) in Hw.
    exists w1, w2. split; [exact Hrun | exact Hw].
Qed.

(** X19.  On a bus that acknowledges, zeroWiper and maxWiper bring mirror
    and device together whatever they held before; setTap with the tap the
    mirror already holds writes nothing, so a device register that differs
    from the mirror stays as it is. *)
Theorem forced_writes_resynchronise c w :
  (hd 0 (faults (Wire w)) = 0 ->
   (exists w',
      zeroWiper (ch_id c) w = Some (tt, w') /\
      tapPosition c w' = 0 /\ wiper_byte c w' = 0) /\
   (exists w',
      maxWiper (ch_id c) w = Some (tt, w') /\
      tapPosition c w' = TPL0102_TAP_NUMBER /\
      wiper_byte c w' = TPL0102_TAP_NUMBER)) /\
  (byte (tapPosition c w) ->
   exists w',
     setTap (ch_id c) (tapPosition c w) w = Some (tapPosition c w, w') /\
     tapPosition c w' = tapPosition c w /\
     wiper_byte c w' = wiper_byte c w).
Proof.
  split.
  - open_world w. drv_simpl. intros Hf.
    split; destruct c, dbg; drv_unfold; crank; rewrite Hf;
      (eexists; split; [reflexivity |]);
      unfold wiper_byte, wiper_reg; drv_simpl;
      rewrite !Z.eqb_refl; split; reflexivity.
  - intros Hcur.
    destruct (setTap_effect c _ w Hcur Hcur) as (w' & Hrun & Heff).
    rewrite Z.eqb_refl in Heff. destruct Heff as ((Hm & Hw & _) & _).
    exists w'. split; [exact Hrun |].
    unfold wiper_byte, tapPosition. rewrite Hm, Hw. split; reflexivity.
Qed.

(** X20.  Two calls of setValue(ch, desiredR) in a row, for a tap target
    within [0, 255]: the first leaves the mirror at the target, the second
    leaves bus and mirror as it found them, and the pair puts at most one
    wiper-register write on the bus. *)
Theorem setValue_twice_writes_at_most_once c r w x :
  byte (tapPosition c w) ->
  tap_target r (_nominalResistance (this w)) = Some x ->
  0 <= x <= 255 ->
  exists w1 w2,
    setValue (ch_id c) r w = Some (x, w1) /\
    setValue (ch_id c) r w1 = Some (x, w2) /\
    tapPosition c w1 = x /\
    Wire w2 = Wire w1 /\
    _tapPointer (this w2) = _tapPointer (this w1) /\
    trace (Wire w2)
    = trace (Wire w) ++
      (if x =? tapPosition c w then [] else [wiper_write c x w]).
Proof.
  intros Hcur Htgt Hx.
  assert (Hb : byte x) by (unfold byte; lia).
  assert (Hi : -2147483392 <= x <= 2147483647) by lia.
  destruct (setValue_effect c r w x Hcur Htgt Hi) as (w1 & Hrun1 & Heff1).
  rewrite (u8_small _ Hb) in Hrun1, Heff1.
  assert (Hpos : tapPosition c w1 = x).
  { destruct (Z.eqb_spec x (tapPosition c w)) as [Heq | Hne].
    - destruct Heff1 as ((Hm & _) & _). unfold tapPosition in *.
      rewrite Hm. symmetry. exact Heq.
    - eapply wrote_tapPosition. eassumption. }
  assert (Hnom1 : _nominalResistance (this w1) = _nominalResistance (this w)).
  { destruct (x =? tapPosition c w).
    - destruct Heff1 as (Hi1 & _). eapply idle_nominal. eassumption.
    - eapply wrote_nominal. eassumption. }
  destruct (setValue_effect c r w1 x) as (w2 & Hrun2 & Heff2);
    [rewrite Hpos; exact Hb | rewrite Hnom1; exact Htgt | exact Hi |].
  rewrite (u8_small _ Hb) in Hrun2. rewrite Hpos, Z.eqb_refl in Heff2.
  destruct Heff2 as ((Hm2 & Hw2 & _) & _).
  exists w1, w2. repeat split; try assumption.
  rewrite Hw2. destruct (x =? tapPosition c w).
  - destruct Heff1 as ((_ & Hw1 & _) & _). rewrite Hw1, app_nil_r. reflexivity.
  - apply Heff1.
Qed.

End Endpoints.

(** ** The further properties on the bench *)

(** X1, witness. *)
Lemma dec_counts_down_and_saturates_bench :
  (exists w',
     times 9 (dec (hdr := datasheet) 1) (bench 0 5 []) = Some (tt, w') /\
     tapPosition CH_B w' = 0) /\
  (exists w',
     dec (hdr := datasheet) 0 (bench 0 5 []) = Some (tt, w') /\
     Wire w' = Wire (bench 0 5 []) /\
     _tapPointer (this w') = _tapPointer (this (bench 0 5 []))).
Proof.
  split.
  - apply (proj1 (dec_counts_down_and_saturates (hdr := datasheet) CH_B
                    (bench 0 5 []))).
    cbn. unfold TPL0102_TAP_NUMBER. lia.
  - apply (proj2 (dec_counts_down_and_saturates (hdr := datasheet) CH_A
                    (bench 0 5 []))).
    reflexivity.
Defined.

(** X2, witness. *)
Lemma inc_dec_round_trip_bench :
  (exists w1 w2,
     inc (hdr := datasheet) 0 (bench 7 0 []) = Some (tt, w1) /\
     dec (hdr := datasheet) 0 w1 = Some (tt, w2) /\
     tapPosition CH_A w2 = 7) /\
  (exists w1 w2,
     dec (hdr := datasheet) 0 (bench 7 0 []) = Some (tt, w1) /\
     inc (hdr := datasheet) 0 w1 = Some (tt, w2) /\
     tapPosition CH_A w2 = 7).
Proof.
  split.
  - destruct (proj1 (inc_dec_round_trip (hdr := datasheet) CH_A (bench 7 0 [])))
      as (w1 & w2 & H1 & H2 & H3 & _).
    + cbn. unfold TPL0102_TAP_NUMBER. lia.
    + exists w1, w2. repeat split; assumption.
  - destruct (proj2 (inc_dec_round_trip (hdr := datasheet) CH_A (bench 7 0 [])))
      as (w1 & w2 & H1 & H2 & H3 & _).
    + cbn. unfold TPL0102_TAP_NUMBER. lia.
    + exists w1, w2. repeat split; assumption.
Defined.

(** X3, witness: channel 7 is served through wiper register A; the device
    takes the value on an acknowledged transfer and keeps its registers on a
    refused one. *)
Lemma dataWrite_addresses_register_bench :
  (exists w',
     dataWrite (hdr := datasheet) 7 300 (bench 0 0 []) = Some (tt, w') /\
     trace (Wire w') = [BusWrite 80 [0; 44] true 0] /\
     regs (slave (Wire w')) 0 = 44) /\
  (exists w',
     dataWrite (hdr := datasheet) 1 9 (bench 0 0 [3]) = Some (tt, w') /\
     trace (Wire w') = [BusWrite 80 [1; 9] true 3] /\
     slave (Wire w') = slave (Wire (bench 0 0 [3]))).
Proof.
  split.
  - destruct (dataWrite_addresses_register (hdr := datasheet) 7 300
                (bench 0 0 [])) as (w' & Hrun & Htr & Hack & _).
    exists w'. split; [exact Hrun |]. split; [exact Htr |].
    rewrite (Hack eq_refl 0). reflexivity.
  - destruct (dataWrite_addresses_register (hdr := datasheet) 1 9
                (bench 0 0 [3])) as (w' & Hrun & Htr & _ & Hnack & _).
    exists w'. split; [exact Hrun |]. split; [exact Htr |].
    apply Hnack. cbn. discriminate.
Defined.

(** X4, witness. *)
Lemma mirror_tracks_device_bench :
  exists w',
    exec_all (hdr := datasheet)
      [OpInc CH_A; OpSetTap CH_B 7; OpDec CH_B; OpMaxWiper CH_A]
      (bench 3 4 [])
    = Some (tt, w') /\
    in_sync (hdr := datasheet) w'.
Proof.
  destruct (exec_all_keeps_range (hdr := datasheet)
              [OpInc CH_A; OpSetTap CH_B 7; OpDec CH_B; OpMaxWiper CH_A]
              (bench 3 4 [])) as (w' & Hrun & _).
  - intros c. destruct c; cbn; unfold TPL0102_TAP_NUMBER; lia.
  - repeat constructor; cbn; unfold TPL0102_TAP_NUMBER; lia.
  - exists w'. split; [exact Hrun |].
    apply (mirror_tracks_device (hdr := datasheet)
             [OpInc CH_A; OpSetTap CH_B 7; OpDec CH_B; OpMaxWiper CH_A]
             (bench 3 4 []) w').
    + reflexivity.
    + cbn. discriminate.
    + intros c. destruct c; reflexivity.
    + exact Hrun.
Defined.

(** X5, witness. *)
Lemma other_channel_untouched_bench :
  exists w',
    exec (hdr := datasheet) (OpSetTap CH_A 9) (bench 3 4 []) = Some (tt, w') /\
    tapPosition CH_B w' = 4.
Proof.
  destruct (exec_keeps_range (hdr := datasheet) (OpSetTap CH_A 9)
              (bench 3 4 [])) as (w' & Hrun & _).
  - intros c. destruct c; cbn; unfold TPL0102_TAP_NUMBER; lia.
  - cbn. unfold TPL0102_TAP_NUMBER. lia.
  - exists w'. split; [exact Hrun |].
    exact (proj1 (other_channel_untouched (hdr := datasheet) _ _ _ Hrun)).
Defined.

(** X6, witness: the device holds 32 and 0 in its wiper registers; after
    begin with a nominal resistance of 10000 the mirrors are 32 and 0. *)
Lemma begin_reads_back_bench :
  exists w',
    begin_nomRes (hdr := datasheet) (board := esp32) 80 10000 400000
      (rig 32 0 64 false [])
    = Some (tt, w') /\
    in_sync (hdr := datasheet) w' /\
    _initialState (this w') = (32, 0, 64).
Proof.
  destruct (proj2 (begin_reads_back (hdr := datasheet) (board := esp32) 80
                     10000 400000 (rig 32 0 64 false []) eq_refl))
    as (w' & Hrun & Hs & Hi & _).
  exists w'. split; [exact Hrun |]. split; [exact Hs | exact Hi].
Defined.

(** X7, witness: a device that answers no request. *)
Lemma begin_without_answer_bench :
  exists w',
    begin (hdr := datasheet) (board := esp32) 80 100000
      (rig 11 12 64 false [0; 2; 0; 0; 2; 0; 0; 2; 0])
    = Some (tt, w') /\
    _tapPointer (this w') = (11, 12).
Proof.
  destruct (begin_without_answer_keeps_stale_state (hdr := datasheet)
              (board := esp32) 80 100000
              (rig 11 12 64 false [0; 2; 0; 0; 2; 0; 0; 2; 0])
              0 2 0 0 2 0 0 2 [0] eq_refl)
    as (w' & Hrun & _ & Hm & _).
  - discriminate.
  - discriminate.
  - discriminate.
  - exists w'. split; [exact Hrun | exact Hm].
Defined.

(** X10, witness: with indicators on pins 2 and 4, selecting channel B
    drives pin 4 HIGH and pin 2 LOW; channel 5 and a driver without
    indicators drive nothing. *)
Lemma setChannel_drives_one_indicator_bench :
  (exists w',
     setChannel 1 (rig 0 0 64 true []) = Some (1, w') /\
     pins w' = [(4, 1); (2, 0)]) /\
  (exists w',
     setChannel 5 (rig 0 0 64 true []) = Some (5, w') /\ pins w' = []) /\
  (exists w',
     setChannel 1 (rig 0 0 64 false []) = Some (1, w') /\ pins w' = []).
Proof.
  split; [| split].
  - destruct (proj1 (setChannel_drives_one_indicator (rig 0 0 64 true []))
                CH_B eq_refl) as (w' & Hrun & Hp & _).
    exists w'. split; [exact Hrun | exact Hp].
  - destruct (proj2 (setChannel_drives_one_indicator (rig 0 0 64 true [])) 5)
      as (w' & Hrun & Hp & _).
    + right. split; discriminate.
    + exists w'. split; [exact Hrun | exact Hp].
  - destruct (proj2 (setChannel_drives_one_indicator (rig 0 0 64 false [])) 1)
      as (w' & Hrun & Hp & _).
    + left. reflexivity.
    + exists w'. split; [exact Hrun | exact Hp].
Defined.

(** X13, witness: the bench timer advances by 100 between readings. *)
Lemma setTap_always_records_elapsed_time_bench :
  exists w',
    setTap (hdr := datasheet) 0 5 (bench 5 0 []) = Some (5, w') /\
    _setDelay (this w') = 100.
Proof.
  destruct (setTap_always_records_elapsed_time (hdr := datasheet) CH_A 5
              (bench 5 0 [])) as (w' & Hrun & Hd & _).
  - cbn. unfold byte. lia.
  - unfold byte. lia.
  - exists w'. split; [exact Hrun | exact Hd].
Defined.

(** X14, witness: a control byte of 255 with HIGH stays 255 on bit 0. *)
Lemma switchPot_preserves_other_bits_bench :
  exists w',
    switchPot (hdr := datasheet) 0 LOW (rig 0 0 255 false []) = Some (tt, w') /\
    Z.testbit (control_byte (hdr := datasheet) w') 0 = true.
Proof.
  destruct (switchPot_preserves_other_bits (hdr := datasheet) CH_A LOW
              (rig 0 0 255 false []) eq_refl) as (w' & Hrun & Hbits & _).
  exists w'. split; [exact Hrun |].
  rewrite (Hbits 0); [reflexivity | lia | reflexivity].
Defined.

(** X15, witness: a disabled channel (control byte 0) is enabled by LOW. *)
Lemma switchPot_enable_sets_disable_toggles_bench :
  (exists w1 w2,
     switchPot (hdr := datasheet) 0 HIGH (rig 0 0 0 false []) = Some (tt, w1) /\
     enabled (hdr := datasheet) (control_byte (hdr := datasheet) w1) /\
     switchPot (hdr := datasheet) 0 HIGH w1 = Some (tt, w2) /\
     control_byte (hdr := datasheet) w2 = control_byte (hdr := datasheet) w1) /\
  (exists w',
     switchPot (hdr := datasheet) 0 LOW (rig 0 0 0 false []) = Some (tt, w') /\
     enabled (hdr := datasheet) (control_byte (hdr := datasheet) w')).
Proof.
  assert (Hm : byte (SHUTDOWN_MASK (TPL0102_h := datasheet)))
    by (cbn; unfold byte; lia).
  split.
  - exact (proj1 (switchPot_enable_sets_disable_toggles (hdr := datasheet)
                    CH_A (rig 0 0 0 false []) Hm eq_refl)).
  - exact (proj2 (switchPot_enable_sets_disable_toggles (hdr := datasheet)
                    CH_A (rig 0 0 0 false []) Hm eq_refl) eq_refl).
Defined.

(** X16, witness: the read request is refused; a control byte of 255 in the
    device is overwritten with the bare mask 64. *)
Lemma switchPot_without_answer_writes_mask_bench :
  exists w',
    switchPot (hdr := datasheet) 0 LOW (rig 0 0 255 false [0; 2]) = Some (tt, w') /\
    trace (Wire w')
    = [BusWrite 80 [16] false 0; BusRequest 80 1 false [];
       BusWrite 80 [] true 0; BusWrite 80 [16; 64] true 0].
Proof.
  destruct (switchPot_without_answer_writes_mask (hdr := datasheet) CH_A LOW
              (rig 0 0 255 false [0; 2]) 0 2 [] eq_refl)
    as (w' & Hrun & Htr); [discriminate |].
  exists w'. split; [exact Hrun | exact Htr].
Defined.

(** X19, witness: the mirror says 5 while the device holds 9. *)
Lemma forced_writes_resynchronise_bench :
  (exists w',
     zeroWiper (hdr := datasheet) 0 (bench 5 0 []) = Some (tt, w') /\
     tapPosition CH_A w' = 0 /\ wiper_byte (hdr := datasheet) CH_A w' = 0) /\
  (exists w',
     setTap (hdr := datasheet) 0 5
       {| this := driver_at 5 0; Wire := bus_with 9 0 64 []; Serial := [];
          pins := []; timer := timer (bench 0 0 []) |}
     = Some (5, w') /\
     tapPosition CH_A w' = 5 /\ wiper_byte (hdr := datasheet) CH_A w' = 9).
Proof.
  split.
  - exact (proj1 (proj1 (forced_writes_resynchronise (hdr := datasheet) CH_A
                           (bench 5 0 [])) eq_refl)).
  - apply (proj2 (forced_writes_resynchronise (hdr := datasheet) CH_A
             {| this := driver_at 5 0; Wire := bus_with 9 0 64 [];
                Serial := []; pins := []; timer := timer (bench 0 0 []) |})).
    cbn. unfold byte. lia.
Defined.

(** X20, witness. *)
Lemma setValue_twice_bench :
  exists w1 w2,
    setValue (hdr := datasheet) 0 2500 (bench 0 0 []) = Some (16, w1) /\
    setValue (hdr := datasheet) 0 2500 w1 = Some (16, w2) /\
    trace (Wire w2) = [BusWrite 80 [0; 16] true 0].
Proof.
  destruct (setValue_twice_writes_at_most_once (hdr := datasheet) CH_A 2500
              (bench 0 0 []) 16)
    as (w1 & w2 & Hrun1 & Hrun2 & _ & _ & _ & Htr).
  - cbn. unfold byte. lia.
  - vm_compute. reflexivity.
  - lia.
  - exists w1, w2. split; [exact Hrun1 |]. split; [exact Hrun2 | exact Htr].
Defined.
